(** * NHL dashboard scraper: a shallow embedding of [main.py]

    The program fetches JSON documents over HTTP, reshapes them into rows
    and writes three tables.  The embedding follows the Python source
    function by function:

    - parsed JSON is the inductive [value]; Python exceptions are [exn];
      an expression that may raise has type [result];
    - the network, the console, the clock and the file system are fields
      of an explicit [State], threaded by the monad [M];
    - [fetch_json], [fetch_teams], [fetch_team_roster],
      [fetch_player_stats], [build_rosters_and_stats], [export_to_csv]
      and [main] keep their names.

    What is taken from the libraries rather than from [main.py]:
    [requests.get] either returns a response or raises a subclass of
    [Exception]; [raise_for_status] raises for a status in 400..599;
    a [DataFrame] keeps the records it is given, cell by cell;
    [to_csv] and [os.makedirs] succeed; the text of an exception and
    [str] of a float or a container are parameters; [str.lower] and
    [urllib.parse.quote] are written out for code points below 256. *)

From Stdlib Require Import ZArith List String Ascii Bool Lia.
From Stdlib Require Import PrimFloat SpecFloat FloatOps.
From Stdlib Require Import DecimalString.
Import ListNotations.

Open Scope string_scope.
Open Scope Z_scope.

Set Implicit Arguments.
Set Warnings "-register-all".

(* ===================================================================== *)
(** ** Python values *)
(* ===================================================================== *)

(** What [response.json()] can return.  A JSON object is a [VDict]: its
    keys are strings and it keeps insertion order, as a Python [dict]
    does, so it is an association list.  Python integers are unbounded
    ([Z]); Python floats are IEEE binary64 ([float]).  A character of a
    [string] stands for one code point below 256. *)
Inductive value : Type :=
| VNone
| VBool (b : bool)
| VInt (n : Z)
| VFloat (f : float)
| VStr (s : string)
| VList (xs : list value)
| VDict (kvs : list (string * value)).

Definition dict : Type := list (string * value).

(** The exceptions the aggregation code can raise. *)
Inductive exn : Type :=
| KeyError (key : value)
| IndexError
| TypeError
| AttributeError
| OverflowError.

Inductive result (A : Type) : Type :=
| Ok (a : A)
| Raise (e : exn).

Arguments Ok {A} a.
Arguments Raise {A} e.

Definition rbind {A B} (r : result A) (k : A -> result B) : result B :=
  match r with
  | Ok a => k a
  | Raise e => Raise e
  end.

Declare Scope result_scope.
Delimit Scope result_scope with result.
Notation "'let*' x ':=' r 'in' k" := (rbind r (fun x => k))
  (at level 61, x name, r at next level, right associativity) : result_scope.
Open Scope result_scope.

(** Evaluate a list of fallible expressions left to right; the first
    exception wins, as in a dict or list display. *)
Fixpoint rmap {A B} (f : A -> result B) (xs : list A) : result (list B) :=
  match xs with
  | [] => Ok []
  | x :: xs' =>
      let* y := f x in
      let* ys := rmap f xs' in
      Ok (y :: ys)
  end.

(* --------------------------------------------------------------------- *)
(** *** Dictionaries *)

Fixpoint dict_lookup (d : dict) (k : string) : option value :=
  match d with
  | [] => None
  | (k', v) :: d' => if String.eqb k k' then Some v else dict_lookup d' k
  end.

(** [d[k] = v]: an existing key keeps its position, a new key goes last. *)
Fixpoint dict_set (d : dict) (k : string) (v : value) : dict :=
  match d with
  | [] => [(k, v)]
  | (k', v') :: d' =>
      if String.eqb k k' then (k', v) :: d' else (k', v') :: dict_set d' k v
  end.

(** [d.update(other)] on two dicts. *)
Definition dict_update (d other : dict) : dict :=
  fold_left (fun acc kv => dict_set acc (fst kv) (snd kv)) other d.

Definition dict_has (d : dict) (k : string) : bool :=
  match dict_lookup d k with Some _ => true | None => false end.

(* --------------------------------------------------------------------- *)
(** *** Numbers *)

(** [float(n)] for an integer [n]: round to nearest even, and
    [OverflowError] when the result is not finite. *)
Definition int_to_float (n : Z) : result float :=
  let f := SF2Prim (binary_normalize prec emax n 0 false) in
  if PrimFloat.is_infinity f then Raise OverflowError else Ok f.

(** Python compares an int with a float by value. *)
Definition float_eq_int (f : float) (n : Z) : bool :=
  match Prim2SF f with
  | S754_zero _ => Z.eqb n 0
  | S754_finite s m e =>
      let mag := Z.pos m in
      let sgn x := if s then Z.opp x else x in
      if Z.leb 0 e then Z.eqb n (sgn (mag * 2 ^ e))
      else andb (Z.eqb (mag mod 2 ^ (- e)) 0) (Z.eqb n (sgn (mag / 2 ^ (- e))))
  | _ => false
  end.

Definition bool_to_Z (b : bool) : Z := if b then 1 else 0.

(** The operands of arithmetic: [bool] is a subclass of [int]. *)
Inductive number : Type :=
| NInt (n : Z)
| NFloat (f : float).

Definition as_number (v : value) : option number :=
  match v with
  | VBool b => Some (NInt (bool_to_Z b))
  | VInt n => Some (NInt n)
  | VFloat f => Some (NFloat f)
  | _ => None
  end.

(** [a - b]. *)
Definition py_sub (a b : value) : result value :=
  match as_number a, as_number b with
  | Some (NInt x), Some (NInt y) => Ok (VInt (x - y))
  | Some (NInt x), Some (NFloat g) =>
      let* f := int_to_float x in Ok (VFloat (PrimFloat.sub f g))
  | Some (NFloat f), Some (NInt y) =>
      let* g := int_to_float y in Ok (VFloat (PrimFloat.sub f g))
  | Some (NFloat f), Some (NFloat g) => Ok (VFloat (PrimFloat.sub f g))
  | _, _ => Raise TypeError
  end.

(** [a + b]: numbers add, strings and lists concatenate. *)
Definition py_add (a b : value) : result value :=
  match a, b with
  | VList xs, VList ys => Ok (VList (xs ++ ys))
  | VStr s, VStr t => Ok (VStr (s ++ t))
  | _, _ =>
      match as_number a, as_number b with
      | Some (NInt x), Some (NInt y) => Ok (VInt (x + y))
      | Some (NInt x), Some (NFloat g) =>
          let* f := int_to_float x in Ok (VFloat (PrimFloat.add f g))
      | Some (NFloat f), Some (NInt y) =>
          let* g := int_to_float y in Ok (VFloat (PrimFloat.add f g))
      | Some (NFloat f), Some (NFloat g) => Ok (VFloat (PrimFloat.add f g))
      | _, _ => Raise TypeError
      end
  end.

(* --------------------------------------------------------------------- *)
(** *** Truth value, subscripting, methods *)

(** [bool(v)], what [if v:] and [not v] test. *)
Definition truthy (v : value) : bool :=
  match v with
  | VNone => false
  | VBool b => b
  | VInt n => negb (Z.eqb n 0)
  | VFloat f => negb (PrimFloat.eqb f 0%float)
  | VStr s => negb (String.eqb s "")
  | VList xs => match xs with [] => false | _ => true end
  | VDict kvs => match kvs with [] => false | _ => true end
  end.

Definition hashable (v : value) : bool :=
  match v with
  | VList _ | VDict _ => false
  | _ => true
  end.

(** Index [i] of a sequence of length [len], negative indices counted
    from the end. *)
Definition seq_index (len i : Z) : option nat :=
  let j := if Z.ltb i 0 then i + len else i in
  if andb (Z.leb 0 j) (Z.ltb j len) then Some (Z.to_nat j) else None.

Definition string_of_ascii (c : ascii) : string := String c EmptyString.

(** [obj[key]]. *)
Definition py_getitem (obj key : value) : result value :=
  match obj with
  | VDict d =>
      match key with
      | VStr k =>
          match dict_lookup d k with
          | Some v => Ok v
          | None => Raise (KeyError key)
          end
      | _ => if hashable key then Raise (KeyError key) else Raise TypeError
      end
  | VList xs =>
      match as_number key with
      | Some (NInt i) =>
          match seq_index (Z.of_nat (List.length xs)) i with
          | Some j => match nth_error xs j with
                      | Some v => Ok v
                      | None => Raise IndexError
                      end
          | None => Raise IndexError
          end
      | _ => Raise TypeError
      end
  | VStr s =>
      match as_number key with
      | Some (NInt i) =>
          match seq_index (Z.of_nat (String.length s)) i with
          | Some j => match String.get j s with
                      | Some c => Ok (VStr (string_of_ascii c))
                      | None => Raise IndexError
                      end
          | None => Raise IndexError
          end
      | _ => Raise TypeError
      end
  | _ => Raise TypeError
  end.

(** [obj.get(key, default)]; only a dict has the method. *)
Definition py_get (obj : value) (key : string) (default : value)
  : result value :=
  match obj with
  | VDict d =>
      match dict_lookup d key with
      | Some v => Ok v
      | None => Ok default
      end
  | _ => Raise AttributeError
  end.

(** [obj.update(other)]; the result is the object after the call. *)
Definition py_update (obj : value) (other : dict) : result dict :=
  match obj with
  | VDict d => Ok (dict_update d other)
  | _ => Raise AttributeError
  end.

Fixpoint chars_of (s : string) : list value :=
  match s with
  | EmptyString => []
  | String c s' => VStr (string_of_ascii c) :: chars_of s'
  end.

(** The elements a [for] loop visits. *)
Definition py_iter (v : value) : result (list value) :=
  match v with
  | VList xs => Ok xs
  | VStr s => Ok (chars_of s)
  | VDict d => Ok (map (fun kv => VStr (fst kv)) d)
  | _ => Raise TypeError
  end.

(** [key == k] for an integer [k]: [True == 1], [2.0 == 2], and a
    string, [None], a list or a dict equals no integer. *)
Definition equals_int (key : value) (k : Z) : bool :=
  match as_number key with
  | Some (NInt n) => Z.eqb n k
  | Some (NFloat f) => float_eq_int f k
  | None => false
  end.

Fixpoint int_table_lookup (tbl : list (Z * value)) (key : value)
  : option value :=
  match tbl with
  | [] => None
  | (k, v) :: tbl' =>
      if equals_int key k then Some v else int_table_lookup tbl' key
  end.

(** [{k1: v1, ...}.get(key, default)] for a display with integer keys.
    The key is hashed first, so a list or dict key raises. *)
Definition int_table_get (tbl : list (Z * value)) (key default : value)
  : result value :=
  if hashable key then
    Ok (match int_table_lookup tbl key with Some v => v | None => default end)
  else Raise TypeError.

(* --------------------------------------------------------------------- *)
(** *** Strings: [str.lower], [urllib.parse.quote] *)

Definition lower_ascii (c : ascii) : ascii :=
  let n := nat_of_ascii c in
  if andb (Nat.leb 65 n) (Nat.leb n 90) then ascii_of_nat (n + 32)
  else if andb (andb (Nat.leb 192 n) (Nat.leb n 222)) (negb (Nat.eqb n 215))
       then ascii_of_nat (n + 32)
  else c.

Fixpoint lower (s : string) : string :=
  match s with
  | EmptyString => EmptyString
  | String c s' => String (lower_ascii c) (lower s')
  end.

(** [obj.lower()]; only a string has the method. *)
Definition py_lower (obj : value) : result string :=
  match obj with
  | VStr s => Ok (lower s)
  | _ => Raise AttributeError
  end.

Definition hex_digit (n : nat) : ascii :=
  if Nat.ltb n 10 then ascii_of_nat (48 + n) else ascii_of_nat (55 + n).

(** One byte as [%XX], upper-case hexadecimal. *)
Definition percent_byte (n : nat) : string :=
  String "%" (String (hex_digit (n / 16)) (String (hex_digit (n mod 16)) "")).

(** Letters, digits and [_.-~] are never quoted; [/] is the default
    [safe] argument. *)
Definition quote_safe (n : nat) : bool :=
  orb (andb (Nat.leb 65 n) (Nat.leb n 90))
 (orb (andb (Nat.leb 97 n) (Nat.leb n 122))
 (orb (andb (Nat.leb 48 n) (Nat.leb n 57))
 (orb (Nat.eqb n 95) (orb (Nat.eqb n 46) (orb (Nat.eqb n 45)
 (orb (Nat.eqb n 126) (Nat.eqb n 47))))))).

(** [urllib.parse.quote(s)] with its default [safe="/"], on the strings
    of this model, whose characters are code points below 256: a code
    point below 128 is one UTF-8 byte, one in 128..255 is two.  A code
    point from 256 up (three or four bytes) and a lone surrogate (on
    which [quote] raises [UnicodeEncodeError]) have no counterpart
    here. *)
Definition quote_char (c : ascii) : string :=
  let n := nat_of_ascii c in
  if quote_safe n then string_of_ascii c
  else if Nat.ltb n 128 then percent_byte n
  else percent_byte (192 + n / 64) ++ percent_byte (128 + n mod 64).

Fixpoint quote (s : string) : string :=
  match s with
  | EmptyString => EmptyString
  | String c s' => quote_char c ++ quote s'
  end.

Definition str_of_int (n : Z) : string :=
  NilZero.string_of_int (Z.to_int n).

(* ===================================================================== *)
(** ** pandas *)
(* ===================================================================== *)

(** A [DataFrame] built from a list of records.  Cells hold the values
    they were given.  The coercion pandas applies to a column is not
    modelled: an integer column with a missing value comes back as
    floats ([7] as [7.0]) and [None] as [NaN].  The properties below
    speak of the number and order of rows and of cells repeated from one
    table to the next, not of the values pandas hands back. *)
Record DataFrame : Type := mkDataFrame { df_records : list dict }.

(** [pd.DataFrame()]. *)
Definition DataFrame_empty : DataFrame := mkDataFrame [].

Definition add_column (cols : list string) (k : string) : list string :=
  if existsb (String.eqb k) cols then cols else cols ++ [k].

(** The columns: every key of every record, in order of first occurrence. *)
Definition df_columns (df : DataFrame) : list string :=
  fold_left (fun cols r => fold_left add_column (map fst r) cols)
            (df_records df) [].

(** [len(df)]. *)
Definition df_len (df : DataFrame) : nat := List.length (df_records df).

(** [df.empty]: some axis has length 0. *)
Definition df_is_empty (df : DataFrame) : bool :=
  match df_records df, df_columns df with
  | [], _ => true
  | _, [] => true
  | _, _ => false
  end.

Definition nan : float := PrimFloat.nan.

(** A row as [iterrows] yields it: a cell for every column. *)
Record Series : Type := mkSeries { s_index : list string; s_record : dict }.

Definition iterrows (df : DataFrame) : list Series :=
  map (mkSeries (df_columns df)) (df_records df).

(** [row[key]]. *)
Definition series_getitem (row : Series) (key : string) : result value :=
  if existsb (String.eqb key) (s_index row) then
    match dict_lookup (s_record row) key with
    | Some v => Ok v
    | None => Ok (VFloat nan)
    end
  else Raise (KeyError (VStr key)).

(* ===================================================================== *)
(** ** The outside world *)
(* ===================================================================== *)

(** What [requests.get(url)] followed by [raise_for_status()] and
    [json()] can do: [requests.get] raises, or it returns a response
    with a status code and a body that decodes to a value or does not.
    The strings are the text [str(e)] of the exception raised. *)
Record Response : Type := mkResponse {
  status_code : Z;
  http_error_text : string;
  json_body : string + value
}.

Inductive http_outcome : Type :=
| GetRaised (text : string)
| GetReturned (r : Response).

(** A line on standard output. *)
Inductive line : Type :=
| LineFetchFailed (url text : string)   (* [ERROR] Failed fetching {url}: {e} *)
| LineStarting                          (* [..] Starting NHL Data Fetch... *)
| LineNoTeams                           (* [ERROR] No teams returned. *)
| LineFetchingRoster (team_name : value)(* [INFO] Fetching roster for ... *)
| LineExported (filename : string) (rows : nat)
                                        (* [..] Exported {filename} ({n} rows) *)
| LineSuccess.                          (* Success! *)

Definition DATA_FOLDER := "data".
Definition SEASON_ID := "20252026".
Definition SEASON_ID_OFFSEASON := "20242025".
Definition BASE_URL := "https://api-web.nhle.com/v1".

(** The three ways the body of [fetch_json]'s [try] can raise. *)
Inductive request_exn : Type :=
| RequestException (text : string)   (* requests.get: connection, timeout *)
| HTTPError (text : string)          (* raise_for_status: 4xx or 5xx *)
| JSONDecodeError (text : string).   (* response.json *)

Definition exn_text (e : request_exn) : string :=
  match e with
  | RequestException t | HTTPError t | JSONDecodeError t => t
  end.

(** [response.raise_for_status()] raises for a status in 400..599. *)
Definition is_error_status (r : Response) : bool :=
  andb (Z.leb 400 (status_code r)) (Z.ltb (status_code r) 600).

(** The [try] block of [fetch_json]:
    [requests.get(url)], [raise_for_status()], [return response.json()]. *)
Definition fetch_attempt (out : http_outcome) : request_exn + value :=
  match out with
  | GetRaised text => inl (RequestException text)
  | GetReturned r =>
      if is_error_status r then inl (HTTPError (http_error_text r))
      else match json_body r with
           | inl text => inl (JSONDecodeError text)
           | inr v => inr v
           end
  end.

(* --------------------------------------------------------------------- *)
(** *** Dict displays made of lookups *)

(** The expressions that occur as values in the dict displays of
    [fetch_teams]. *)
Inductive field_expr : Type :=
| Local (v : value)               (* a local variable *)
| Sub1 (k : string)               (* entry[k] *)
| Sub2 (k1 k2 : string)           (* entry[k1][k2] *)
| Get (k : string)                (* entry.get(k) *)
| GetOr (k : string) (d : value)  (* entry.get(k, d) *)
| GetMinusGet (k1 k2 : string).   (* entry.get(k1) - entry.get(k2) *)

Definition eval_field (entry : value) (e : field_expr) : result value :=
  match e with
  | Local v => Ok v
  | Sub1 k => py_getitem entry (VStr k)
  | Sub2 k1 k2 =>
      let* inner := py_getitem entry (VStr k1) in
      py_getitem inner (VStr k2)
  | Get k => py_get entry k VNone
  | GetOr k d => py_get entry k d
  | GetMinusGet k1 k2 =>
      let* a := py_get entry k1 VNone in
      let* b := py_get entry k2 VNone in
      py_sub a b
  end.

(** [{k1: e1, k2: e2, ...}], the values evaluated in order. *)
Definition dict_display (entry : value) (fields : list (string * field_expr))
  : result dict :=
  rmap (fun kf => let* v := eval_field entry (snd kf) in Ok (fst kf, v))
       fields.

(** Lines 45-104: the display bound to [team_data]. *)
Definition team_data_fields (team_abbr : value)
  : list (string * field_expr) :=
  [ ("team_abbr", Local team_abbr);
    ("team_name", Sub2 "teamName" "default");
    ("conference", Sub1 "conferenceName");
    ("division", Sub1 "divisionName");
    ("logo", Sub1 "teamLogo");
    ("wins", Get "wins");
    ("losses", Get "losses");
    ("ot_losses", Get "otLosses");
    ("games_played", Get "gamesPlayed");
    ("points", Get "points");
    ("point_pctg", Get "pointPctg");
    ("win_pctg", Get "winPctg");
    ("clinch", GetOr "clinchIndicator" (VStr ""));
    ("goals_for", Get "goalFor");
    ("goals_against", Get "goalAgainst");
    ("goal_diff", Get "goalDifferential");
    ("streak_type", GetOr "streakCode" (VStr ""));
    ("streak_length", Get "streakCount");
    ("regulation_wins", Get "regulationWins");
    ("reg_ot_wins", GetMinusGet "regulationPlusOtWins" "regulationWins");
    ("shootout_wins", Get "shootoutWins");
    ("shootout_losses", Get "shootoutLosses");
    ("home_games_played", Get "homeGamesPlayed");
    ("home_wins", Get "homeWins");
    ("home_losses", Get "homeLosses");
    ("home_ot_losses", Get "homeOtLosses");
    ("home_points", Get "homePoints");
    ("home_goals_for", Get "homeGoalsFor");
    ("home_goals_against", Get "homeGoalsAgainst");
    ("home_goal_diff", Get "homeGoalDifferential");
    ("road_games_played", Get "roadGamesPlayed");
    ("road_wins", Get "roadWins");
    ("road_losses", Get "roadLosses");
    ("road_ot_losses", Get "roadOtLosses");
    ("road_points", Get "roadPoints");
    ("road_goals_for", Get "roadGoalsFor");
    ("road_goals_against", Get "roadGoalsAgainst");
    ("road_goal_diff", Get "roadGoalDifferential");
    ("l10_wins", Get "l10Wins");
    ("l10_losses", Get "l10Losses");
    ("l10_ot_losses", Get "l10OtLosses");
    ("l10_points", Get "l10Points");
    ("l10_goals_for", Get "l10GoalsFor");
    ("l10_goals_against", Get "l10GoalsAgainst");
    ("l10_goal_diff", Get "l10GoalDifferential") ].

(** Lines 44-104: [team_abbr] and [team_data] of one standings entry. *)
Definition standings_row (entry : value) : result (value * dict) :=
  let* team_abbr := eval_field entry (Sub2 "teamAbbrev" "default") in
  let* team_data := dict_display entry (team_data_fields team_abbr) in
  Ok (team_abbr, team_data).

Definition powerplay_fields : list (string * field_expr) :=
  [ ("power_play_pct", Get "powerPlayPct");
    ("power_play_goals", Get "powerPlayGoalsFor");
    ("pp_goals_per_game", Get "ppGoalsPerGame");
    ("pp_opportunities", Get "ppOpportunities");
    ("sh_goals_against", Get "shGoalsAgainst");
    ("pp_net_goals", Get "ppNetGoals") ].

Definition goalsbyperiod_fields : list (string * field_expr) :=
  [ ("period1GoalsFor", Get "period1GoalsFor");
    ("period2GoalsFor", Get "period2GoalsFor");
    ("period3GoalsFor", Get "period3GoalsFor");
    ("periodOtGoalsFor", Get "periodOtGoalsFor");
    ("period1GoalsAgainst", Get "period1GoalsAgainst");
    ("period2GoalsAgainst", Get "period2GoalsAgainst");
    ("period3GoalsAgainst", Get "period3GoalsAgainst");
    ("periodOtGoalsAgainst", Get "periodOtGoalsAgainst") ].

Definition faceoff_fields : list (string * field_expr) :=
  [ ("faceoff_win_pct", Get "faceoffWinPct");
    ("defensive_zone_faceoff_pct", Get "defensiveZoneFaceoffPct");
    ("neutral_zone_faceoff_pct", Get "neutralZoneFaceoffPct");
    ("offensive_zone_faceoff_pct", Get "offensiveZoneFaceoffPct");
    ("pp_faceoff_pct", Get "ppFaceoffPct");
    ("sh_faceoff_pct", Get "shFaceoffPct");
    ("total_faceoffs", Get "totalFaceoffs") ].

(** [team_data.update({...})] with the display read from [row]. *)
Definition update_from (team_data : dict) (row : value)
           (fields : list (string * field_expr)) : result dict :=
  let* extra := dict_display row fields in
  Ok (dict_update team_data extra).

(** Lines 112-121: [if pp_data and pp_data["data"]: ...]. *)
Definition merge_powerplay (team_data : dict) (pp_data : value)
  : result dict :=
  if truthy pp_data then
    let* rows := py_getitem pp_data (VStr "data") in
    if truthy rows then
      let* container := py_getitem pp_data (VStr "data") in
      let* pp_stats := py_getitem container (VInt 0) in
      update_from team_data pp_stats powerplay_fields
    else Ok team_data
  else Ok team_data.

(** Lines 126-137 and 143-153: [if gbp and gbp.get("data"): ...]. *)
Definition merge_with_get (fields : list (string * field_expr))
           (team_data : dict) (payload : value) : result dict :=
  if truthy payload then
    let* rows := py_get payload "data" VNone in
    if truthy rows then
      let* container := py_getitem payload (VStr "data") in
      let* first_row := py_getitem container (VInt 0) in
      update_from team_data first_row fields
    else Ok team_data
  else Ok team_data.

Definition merge_goalsbyperiod := merge_with_get goalsbyperiod_fields.
Definition merge_faceoff := merge_with_get faceoff_fields.

(** Line 181: [{2: "regular", 3: "playoffs"}.get(game_type, "other")]. *)
Definition season_type_of (game_type : value) : result value :=
  int_table_get [(2, VStr "regular"); (3, VStr "playoffs")]
                game_type (VStr "other").

(** Lines 183-190 and 197-204: the display passed to [update]. *)
Definition stat_tags (player_id : value) (full_name : string)
           (team type_ : value) (scope : string) (position : value) : dict :=
  [ ("player_id", player_id);
    ("player", VStr full_name);
    ("team", team);
    ("type", type_);
    ("season_scope", VStr scope);
    ("positionCode", position) ].

(** Lines 180-191: the body of the loop over [seasonTotals]. *)
Definition season_row (player_id : value) (full_name : string)
           (position : value) (season : value) : result dict :=
  let* game_type := py_get season "gameTypeId" VNone in
  let* season_type := season_type_of game_type in
  let* team := py_get season "teamName" VNone in
  py_update season
            (stat_tags player_id full_name team season_type "season" position).

(** Lines 195-205: the body of the loop over the two career keys; [None]
    when nothing is appended. *)
Definition career_row (data : value) (player_id : value) (full_name : string)
           (team_name position : value) (key_label : string * string)
  : result (option dict) :=
  let* totals := py_get data "careerTotals" (VDict []) in
  let* career := py_get totals (fst key_label) VNone in
  if truthy career then
    let* row := py_update career
                  (stat_tags player_id full_name team_name
                             (VStr (snd key_label)) "career" position) in
    Ok (Some row)
  else Ok None.

Definition career_keys : list (string * string) :=
  [ ("regularSeason", "regular"); ("playoffs", "playoffs") ].

Definition somes {A} (xs : list (option A)) : list A :=
  flat_map (fun o => match o with Some a => [a] | None => [] end) xs.

(** Lines 176-207 of [fetch_player_stats]: the rows for a truthy
    payload [data]. *)
Definition player_stat_rows (data : value) (player_id : value)
           (full_name : string) (team_name position : value)
  : result (list dict) :=
  let* totals := py_get data "seasonTotals" (VList []) in
  let* seasons := py_iter totals in
  let* season_rows := rmap (season_row player_id full_name position) seasons in
  let* career_rows :=
     rmap (career_row data player_id full_name team_name position)
          career_keys in
  Ok (season_rows ++ somes career_rows)%list.

(** Line 166 of [fetch_team_roster]. *)
Definition roster_players (data : value) : result value :=
  let* forwards := py_get data "forwards" (VList []) in
  let* defensemen := py_get data "defensemen" (VList []) in
  let* fd := py_add forwards defensemen in
  let* goalies := py_get data "goalies" (VList []) in
  py_add fd goalies.

(* ===================================================================== *)
(** ** Sample payloads and a static site *)
(* ===================================================================== *)

Module Sample.

(** A site answers the listed URLs with status 200 and the given JSON,
    and every other URL with status 404.  It never changes, so the
    state of the world is [unit]. *)
Definition site : Type := list (string * value).

Definition not_found : Response :=
  mkResponse 404 "404 Client Error: Not Found" (inl "no body").

Fixpoint page (s : site) (url : string) : Response :=
  match s with
  | [] => not_found
  | (u, v) :: s' =>
      if String.eqb url u then mkResponse 200 "" (inr v) else page s' url
  end.

Definition serve (s : site) (w : unit) (url : string)
  : http_outcome * unit :=
  (GetReturned (page s url), w).

(** The same site on a network that records every URL requested. *)
Definition serve_logged (s : site) (w : list string) (url : string)
  : http_outcome * list string :=
  (GetReturned (page s url), (w ++ [url])%list).

Definition repr_plain (v : value) : string := "<object>".

Definition localized (s : string) : value := VDict [("default", VStr s)].

(** One standings entry, abridged to the keys that matter here. *)
Definition fields_TOR : dict :=
        [ ("teamAbbrev", localized "TOR");
          ("teamName", localized "Toronto Maple Leafs");
          ("conferenceName", VStr "Eastern");
          ("divisionName", VStr "Atlantic");
          ("teamLogo", VStr "https://assets.nhle.com/logos/nhl/svg/TOR_light.svg");
          ("wins", VInt 52);
          ("losses", VInt 26);
          ("otLosses", VInt 4);
          ("pointPctg", VFloat 0.625);
          ("regulationPlusOtWins", VInt 40);
          ("regulationWins", VInt 30) ].

Definition entry_TOR : value := VDict fields_TOR.

Definition entry_MTL : value :=
  VDict [ ("teamAbbrev", localized "MTL");
          ("teamName", localized "Montreal Canadiens");
          ("conferenceName", VStr "Eastern");
          ("divisionName", VStr "Atlantic");
          ("teamLogo", VStr "https://assets.nhle.com/logos/nhl/svg/MTL_light.svg");
          ("wins", VInt 40);
          ("regulationPlusOtWins", VInt 37);
          ("regulationWins", VInt 30) ].

(** An entry whose abbreviation is a plain string, not an object with
    the key [default], and which has no [conferenceName]. *)
Definition entry_plain_abbrev : value :=
  VDict [ ("teamAbbrev", VStr "TOR");
          ("teamName", localized "Toronto Maple Leafs") ].

(** As [entry_TOR], without the key [regulationWins]. *)
Definition entry_no_regulation_wins : value :=
  VDict [ ("teamAbbrev", localized "TOR");
          ("teamName", localized "Toronto Maple Leafs");
          ("conferenceName", VStr "Eastern");
          ("divisionName", VStr "Atlantic");
          ("teamLogo", VStr "https://assets.nhle.com/logos/nhl/svg/TOR_light.svg");
          ("wins", VInt 52);
          ("regulationPlusOtWins", VInt 40) ].

(** As [entry_TOR], without the key [conferenceName]. *)
Definition entry_no_conference : value :=
  VDict [ ("teamAbbrev", localized "TOR");
          ("teamName", localized "Toronto Maple Leafs");
          ("divisionName", VStr "Atlantic");
          ("teamLogo", VStr "https://assets.nhle.com/logos/nhl/svg/TOR_light.svg");
          ("wins", VInt 52);
          ("regulationPlusOtWins", VInt 40);
          ("regulationWins", VInt 30) ].

Definition standings_of (entries : list value) : value :=
  VDict [ ("wildCardIndicator", VBool true); ("standings", VList entries) ].

Definition powerplay_payload : value :=
  VDict [ ("data", VList [ VDict [ ("powerPlayPct", VFloat 0.25);
                                   ("powerPlayGoalsFor", VInt 60);
                                   ("ppOpportunities", VInt 240) ] ]);
          ("total", VInt 1) ].

Definition goalsbyperiod_payload : value :=
  VDict [ ("data", VList [ VDict [ ("period1GoalsFor", VInt 80);
                                   ("period2GoalsFor", VInt 95) ] ]);
          ("total", VInt 1) ].

Definition no_rows_payload : value :=
  VDict [ ("data", VList []); ("total", VInt 0) ].

(** A JSON object that has no key [data]. *)
Definition message_payload : value :=
  VDict [ ("message", VStr "season not available") ].

Definition player (id : Z) (first last pos : string) : value :=
  VDict [ ("id", VInt id);
          ("firstName", localized first);
          ("lastName", localized last);
          ("positionCode", VStr pos);
          ("sweaterNumber", VInt 34) ].

Definition roster_payload : value :=
  VDict [ ("forwards", VList [ player 8479318 "Auston" "Matthews" "C" ]);
          ("defensemen", VList [ player 8476853 "Morgan" "Rielly" "D" ]);
          ("goalies", VList [ player 8479361 "Joseph" "Woll" "G" ]) ].

Definition season_fields (game_type goals : Z) : dict :=
  [ ("season", VInt 20232024);
    ("gameTypeId", VInt game_type);
    ("teamName", localized "Toronto Maple Leafs");
    ("goals", VInt goals) ].

Definition season_entry (game_type goals : Z) : value :=
  VDict (season_fields game_type goals).

(** A season entry whose game-type code is a JSON array. *)
Definition season_fields_array_code : dict :=
  [ ("season", VInt 20232024); ("gameTypeId", VList []) ].

Definition career_fields (goals : Z) : dict :=
  [ ("gamesPlayed", VInt 562); ("goals", VInt goals) ].

Definition career_entry (goals : Z) : value := VDict (career_fields goals).

Definition career_totals (regular playoffs : value) : dict :=
  [ ("regularSeason", regular); ("playoffs", playoffs) ].

Definition profile_fields (regular playoffs : value) : dict :=
  [ ("playerId", VInt 8479318);
    ("seasonTotals", VList [ season_entry 2 69; season_entry 3 4 ]);
    ("careerTotals", VDict (career_totals regular playoffs)) ].

Definition profile_of (regular playoffs : value) : value :=
  VDict (profile_fields regular playoffs).

Definition profile_payload : value :=
  profile_of (career_entry 368) (career_entry 23).

(** Both career keys are there; the regular-season one holds [{}]. *)
Definition profile_empty_career : value :=
  profile_of (VDict []) (career_entry 23).

(** Both career keys are there; the playoffs one holds [null]. *)
Definition profile_null_career : value :=
  profile_of (career_entry 368) VNone.

Definition cayenne_TOR : string :=
  "teamAbbrev%3D%27TOR%27%20and%20seasonId%3D20242025".

Definition url_standings : string :=
  "https://api-web.nhle.com/v1/standings/now".
Definition url_powerplay_TOR : string :=
  "https://api.nhle.com/stats/rest/en/team/powerplay?cayenneExp="
    ++ cayenne_TOR.
Definition url_goalsbyperiod_TOR : string :=
  "https://api.nhle.com/stats/rest/en/team/goalsbyperiod?cayenneExp="
    ++ cayenne_TOR.
Definition url_faceoff_TOR : string :=
  "https://api.nhle.com/stats/rest/en/team/faceoffpercentages?cayenneExp="
    ++ cayenne_TOR.
Definition url_roster_TOR : string :=
  "https://api-web.nhle.com/v1/roster/tor/20252026".
Definition url_player_8479318 : string :=
  "https://api-web.nhle.com/v1/player/8479318/landing".

(** The standings list one team, and only that document is served. *)
Definition site_standings_only (entry : value) : site :=
  [ (url_standings, standings_of [entry]) ].

(** Two teams; the supplementary statistics of TOR are served, those of
    MTL are not. *)
Definition site_two_teams : site :=
  [ (url_standings, standings_of [entry_TOR; entry_MTL]);
    (url_powerplay_TOR, powerplay_payload);
    (url_goalsbyperiod_TOR, goalsbyperiod_payload);
    (url_faceoff_TOR, no_rows_payload);
    (url_roster_TOR, roster_payload);
    (url_player_8479318, profile_payload) ].

(** The power-play resource answers with an object that has no [data]. *)
Definition site_powerplay_message : site :=
  [ (url_standings, standings_of [entry_TOR]);
    (url_powerplay_TOR, message_payload) ].

(** The goals-by-period resource answers with that same object. *)
Definition site_goalsbyperiod_message : site :=
  [ (url_standings, standings_of [entry_TOR]);
    (url_goalsbyperiod_TOR, message_payload) ].

(** A site on which every document is the empty JSON object. *)
Definition site_empty_objects : site :=
  [ (url_standings, VDict []);
    (url_roster_TOR, VDict []);
    (url_player_8479318, VDict []) ].

Definition site_profile (profile : value) : site :=
  [ (url_player_8479318, profile) ].

(** One team, one forward, one regular-season entry, no career totals. *)
Definition site_one_team : site :=
  [ (url_standings, standings_of [entry_TOR]);
    (url_roster_TOR,
     VDict [ ("forwards", VList [ player 8479318 "Auston" "Matthews" "C" ]) ]);
    (url_player_8479318,
     VDict [ ("seasonTotals", VList [ season_entry 2 69 ]) ]) ].

(** A team table with the two columns [build_rosters_and_stats] reads. *)
Definition teams_table : DataFrame :=
  mkDataFrame
    [ [ ("team_abbr", VStr "TOR"); ("team_name", VStr "Toronto Maple Leafs") ];
      [ ("team_abbr", VStr "MTL"); ("team_name", VStr "Montreal Canadiens") ] ].

(** Three entries, the second without [conferenceName]. *)
Definition site_bad_entry : site :=
  [ (url_standings,
     standings_of [entry_TOR; entry_no_conference; entry_MTL]);
    (url_powerplay_TOR, powerplay_payload) ].

(** A profile whose only season entry has an array as game-type code. *)
Definition profile_array_code : value :=
  VDict [ ("seasonTotals", VList [ VDict season_fields_array_code ]) ].

End Sample.

(* ===================================================================== *)
(** ** The program *)
(* ===================================================================== *)

Section Program.

(** The network: a request is answered from the current state of the
    world and moves it on, so the same URL may be answered differently
    twice. *)
Variable World : Type.
Variable http_get : World -> string -> http_outcome * World.

(** [str(v)] for a float, a list or a dict. *)
Variable repr_other : value -> string.

Record State : Type := mkState {
  world : World;
  stdout : list line;          (* lines printed so far *)
  pauses : nat;                (* calls of time.sleep(0.2) so far *)
  dirs : list string;          (* directories that exist *)
  files : list (string * DataFrame)   (* files written, latest last *)
}.

(** A computation that reads and changes the state and may raise. *)
Definition M (A : Type) : Type := State -> result A * State.

Definition ret {A} (a : A) : M A := fun st => (Ok a, st).

Definition bind {A B} (m : M A) (k : A -> M B) : M B :=
  fun st =>
    match m st with
    | (Ok a, st') => k a st'
    | (Raise e, st') => (Raise e, st')
    end.

Definition lift {A} (r : result A) : M A := fun st => (r, st).

Notation "x <- m ;; k" := (bind m (fun x => k))
  (at level 61, m at next level, right associativity).
Notation "m ;;; k" := (bind m (fun _ => k))
  (at level 61, right associativity).

(** A [for] loop that collects one result per element. *)
Fixpoint for_each {A B} (f : A -> M B) (xs : list A) : M (list B) :=
  match xs with
  | [] => ret []
  | x :: xs' =>
      y <- f x ;;
      ys <- for_each f xs' ;;
      ret (y :: ys)
  end.

Definition print (l : line) : M unit :=
  fun st => (Ok tt, mkState (world st) (stdout st ++ [l]) (pauses st)
                            (dirs st) (files st)).

Definition sleep_200ms : M unit :=
  fun st => (Ok tt, mkState (world st) (stdout st) (S (pauses st))
                            (dirs st) (files st)).

Definition requests_get (url : string) : M http_outcome :=
  fun st =>
    let (out, w) := http_get (world st) url in
    (Ok out, mkState w (stdout st) (pauses st) (dirs st) (files st)).

Definition path_exists (p : string) : M bool :=
  fun st => (Ok (existsb (String.eqb p) (dirs st)), st).

Definition makedirs (p : string) : M unit :=
  fun st => (Ok tt, mkState (world st) (stdout st) (pauses st)
                            (dirs st ++ [p]) (files st)).

Definition to_csv (df : DataFrame) (filename : string) : M unit :=
  fun st => (Ok tt, mkState (world st) (stdout st) (pauses st)
                            (dirs st) (files st ++ [(filename, df)])).

(** [os.path.join] of two relative POSIX paths. *)
Definition path_join (a b : string) : string := a ++ "/" ++ b.

(** [str(v)], what an f-string inserts. *)
Definition py_str (v : value) : string :=
  match v with
  | VStr s => s
  | VNone => "None"
  | VBool true => "True"
  | VBool false => "False"
  | VInt n => str_of_int n
  | _ => repr_other v
  end.

(** Lines 22-30. *)
Definition fetch_json (url : string) : M value :=
  out <- requests_get url ;;
  match fetch_attempt out with
  | inr v => ret v
  | inl e =>
      print (LineFetchFailed url (exn_text e)) ;;;
      ret VNone
  end.

Definition stats_url (resource cayenne_expr : string) : string :=
  "https://api.nhle.com/stats/rest/en/team/" ++ resource
    ++ "?cayenneExp=" ++ cayenne_expr.

(** Lines 44-155: the body of the loop of [fetch_teams]. *)
Definition team_entry (entry : value) : M dict :=
  row <- lift (standings_row entry) ;;
  let team_abbr := fst row in
  let team_data := snd row in
  let cayenne_expr :=
    quote ("teamAbbrev='" ++ py_str team_abbr ++ "' and seasonId="
             ++ SEASON_ID_OFFSEASON) in
  pp_data <- fetch_json (stats_url "powerplay" cayenne_expr) ;;
  team_data <- lift (merge_powerplay team_data pp_data) ;;
  gbp <- fetch_json (stats_url "goalsbyperiod" cayenne_expr) ;;
  team_data <- lift (merge_goalsbyperiod team_data gbp) ;;
  foz <- fetch_json (stats_url "faceoffpercentages" cayenne_expr) ;;
  team_data <- lift (merge_faceoff team_data foz) ;;
  ret team_data.

Definition standings_url : string := BASE_URL ++ "/standings/now".

(** Lines 34-157. *)
Definition fetch_teams : M DataFrame :=
  data <- fetch_json standings_url ;;
  if negb (truthy data) then ret DataFrame_empty
  else
    standings <- lift (py_get data "standings" (VList [])) ;;
    entries <- lift (py_iter standings) ;;
    teams <- for_each team_entry entries ;;
    ret (mkDataFrame teams).

Definition roster_url (abbr_lower : string) : string :=
  BASE_URL ++ "/roster/" ++ abbr_lower ++ "/" ++ SEASON_ID.

(** Lines 159-166. *)
Definition fetch_team_roster (team_abbr : value) : M value :=
  abbr_lower <- lift (py_lower team_abbr) ;;
  data <- fetch_json (roster_url abbr_lower) ;;
  if negb (truthy data) then ret (VList [])
  else lift (roster_players data).

Definition player_url (player_id : value) : string :=
  BASE_URL ++ "/player/" ++ py_str player_id ++ "/landing".

(** Lines 169-207. *)
Definition fetch_player_stats (player_id : value) (full_name : string)
           (team_name position : value) : M (list dict) :=
  data <- fetch_json (player_url player_id) ;;
  if negb (truthy data) then ret []
  else lift (player_stat_rows data player_id full_name team_name position).

(** The two tables under construction in [build_rosters_and_stats]. *)
Definition tables : Type := (list dict * list dict)%type.

(** Lines 223-239: the body of the loop over [players]. *)
Definition roster_player (team_name team_abbr : value) (acc : tables)
           (player : value) : M tables :=
  player_id <- lift (py_getitem player (VStr "id")) ;;
  first <- lift (eval_field player (Sub2 "firstName" "default")) ;;
  last <- lift (eval_field player (Sub2 "lastName" "default")) ;;
  let full_name := py_str first ++ " " ++ py_str last in
  position <- lift (py_getitem player (VStr "positionCode")) ;;
  sweater <- lift (py_get player "sweaterNumber" (VStr "N/A")) ;;
  mug <- lift (py_get player "headshot" VNone) ;;
  let roster_row :=
    [ ("player_id", player_id);
      ("player", VStr full_name);
      ("positionCode", position);
      ("sweaterNumber", sweater);
      ("team", team_name);
      ("team_abbr", team_abbr);
      ("headshot", mug) ] in
  stats <- fetch_player_stats player_id full_name team_name position ;;
  ret ((fst acc ++ [roster_row])%list, (snd acc ++ stats)%list).

(** A [for] loop that threads an accumulator. *)
Fixpoint for_acc {A S} (f : S -> A -> M S) (xs : list A) (acc : S) : M S :=
  match xs with
  | [] => ret acc
  | x :: xs' => acc' <- f acc x ;; for_acc f xs' acc'
  end.

(** Lines 216-241: the body of the loop over the team rows. *)
Definition roster_team (acc : tables) (team : Series) : M tables :=
  team_abbr <- lift (series_getitem team "team_abbr") ;;
  team_name <- lift (series_getitem team "team_name") ;;
  print (LineFetchingRoster team_name) ;;;
  players <- fetch_team_roster team_abbr ;;
  players <- lift (py_iter players) ;;
  acc' <- for_acc (roster_player team_name team_abbr) players acc ;;
  sleep_200ms ;;;
  ret acc'.

(** Lines 210-243. *)
Definition build_rosters_and_stats (teams_df : DataFrame)
  : M (DataFrame * DataFrame) :=
  acc <- for_acc roster_team (iterrows teams_df) ([], []) ;;
  ret (mkDataFrame (fst acc), mkDataFrame (snd acc)).

(** Lines 246-249. *)
Definition export_to_csv (df : DataFrame) (filename : string) : M unit :=
  to_csv df filename ;;;
  print (LineExported filename (df_len df)).

(** Lines 251-268. *)
Definition main : M unit :=
  print LineStarting ;;;
  teams_df <- fetch_teams ;;
  if df_is_empty teams_df then
    print LineNoTeams ;;;
    ret tt
  else
    tabs <- build_rosters_and_stats teams_df ;;
    let rosters_df := fst tabs in
    let stats_df := snd tabs in
    present <- path_exists DATA_FOLDER ;;
    (if negb present then makedirs DATA_FOLDER else ret tt) ;;;
    export_to_csv teams_df (path_join DATA_FOLDER "teams.csv") ;;;
    export_to_csv rosters_df (path_join DATA_FOLDER "rosters.csv") ;;;
    export_to_csv stats_df (path_join DATA_FOLDER "player_stats.csv") ;;;
    print LineSuccess.

(* ===================================================================== *)
(** ** Vocabulary of the properties *)
(* ===================================================================== *)

(** What [d.get(k, default)] returns. *)
Definition read_or (d : dict) (k : string) (default : value) : value :=
  match dict_lookup d k with
  | Some v => v
  | None => default
  end.

(** The keys of a list are pairwise different. *)
Fixpoint distinct (ks : list string) : bool :=
  match ks with
  | [] => true
  | k :: ks' => andb (negb (existsb (String.eqb k) ks')) (distinct ks')
  end.

(** One field of a display against one binding of the dict it makes. *)
Definition field_binding (entry : value) (kf : string * field_expr)
           (kv : string * value) : Prop :=
  fst kv = fst kf /\ eval_field entry (snd kf) = Ok (snd kv).

(** The keys [fetch_teams] reads by subscripting. *)
Definition identity_keys : list string :=
  [ "teamAbbrev"; "teamName"; "conferenceName"; "divisionName"; "teamLogo" ].

(** Lines 44 and 47-50: the reads made by subscripting, in the order
    they are evaluated, each beside the key of the entry it needs. *)
Definition identity_reads : list (string * field_expr) :=
  [ ("teamAbbrev", Sub2 "teamAbbrev" "default");
    ("teamName", Sub2 "teamName" "default");
    ("conferenceName", Sub1 "conferenceName");
    ("divisionName", Sub1 "divisionName");
    ("teamLogo", Sub1 "teamLogo") ].

(** The read returns a value. *)
Definition evaluates (entry : value) (ke : string * field_expr) : Prop :=
  exists v, eval_field entry (snd ke) = Ok v.

(** What a failed identity read can raise: [TypeError] from subscripting
    something that is not an object, or [KeyError] on an identity key or
    on [default]. *)
Definition identity_error (x : exn) : Prop :=
  x = TypeError \/
  exists k, In k ("default" :: identity_keys) /\ x = KeyError (VStr k).

(** No key of [ks1] occurs in [ks2]. *)
Definition apart (ks1 ks2 : list string) : bool :=
  forallb (fun k => negb (existsb (String.eqb k) ks2)) ks1.

(** A payload the three merges accept: a failed or falsy fetch, or an
    object whose [data] is a list that is empty or starts with an
    object. *)
Definition well_formed_stats (v : value) : Prop :=
  truthy v = false \/
  exists d rows,
    v = VDict d /\ dict_lookup d "data" = Some (VList rows) /\
    (rows = [] \/ exists r rest, rows = VDict r :: rest).

(** Every field of the display is a plain [get]. *)
Definition all_gets (fields : list (string * field_expr)) : bool :=
  forallb (fun kf => match snd kf with Get _ => true | _ => false end) fields.

(** The state after the world moved on, after a line was printed,
    after a pause. *)
Definition with_world (st : State) (w : World) : State :=
  mkState w (stdout st) (pauses st) (dirs st) (files st).

Definition with_line (st : State) (l : line) : State :=
  mkState (world st) (stdout st ++ [l]) (pauses st) (dirs st) (files st).

Definition with_pause (st : State) : State :=
  mkState (world st) (stdout st) (S (pauses st)) (dirs st) (files st).

(** The computation writes no file and makes no directory. *)
Definition fs_stable {A} (m : M A) : Prop :=
  forall st, files (snd (m st)) = files st /\ dirs (snd (m st)) = dirs st.

(** A row of the team table extends what [standings_row] built from
    some entry: the supplementary merges only add columns. *)
Definition row_of_entry (entry : value) (row : dict) : Prop :=
  exists abbr base,
    standings_row entry = Ok (abbr, base) /\
    (forall k, In k (map fst base) -> dict_lookup row k = dict_lookup base k).

(** Every answer of the statistics host is one the merges accept. *)
Definition serves_well_formed_stats : Prop :=
  forall w resource expr,
    match fetch_attempt (fst (http_get w (stats_url resource expr))) with
    | inr v => well_formed_stats v
    | inl _ => True
    end.

(** The standings document lists no entry at all. *)
Definition no_entries (data : value) : Prop :=
  truthy data = false \/
  exists s, py_get data "standings" (VList []) = Ok s /\ py_iter s = Ok [].

(** An entry from which lines 44-104 build a row: a JSON object with the
    identity keys and integer regulation wins. *)
Definition complete_entry (entry : value) : Prop :=
  exists d abbr name conf div logo a b,
    entry = VDict d /\
    eval_field entry (Sub2 "teamAbbrev" "default") = Ok abbr /\
    eval_field entry (Sub2 "teamName" "default") = Ok name /\
    dict_lookup d "conferenceName" = Some conf /\
    dict_lookup d "divisionName" = Some div /\
    dict_lookup d "teamLogo" = Some logo /\
    dict_lookup d "regulationPlusOtWins" = Some (VInt a) /\
    dict_lookup d "regulationWins" = Some (VInt b).

(** The fields of [team_data] other than the five subscripts and the
    difference are read with [get]. *)
Definition plain_field (e : field_expr) : bool :=
  match e with
  | Local _ | Get _ | GetOr _ _ => true
  | _ => false
  end.

(** The state after a directory was made, after a file was written. *)
Definition with_dir (st : State) (p : string) : State :=
  mkState (world st) (stdout st) (pauses st) (dirs st ++ [p]) (files st).

Definition with_file (st : State) (name : string) (df : DataFrame) : State :=
  mkState (world st) (stdout st) (pauses st) (dirs st)
          (files st ++ [(name, df)]).

(** Lines 261-268: the directory is made when it is missing, then the
    three files are written. *)
Definition exported (st : State) (teams rosters stats : DataFrame) : State :=
  let st1 :=
    if existsb (String.eqb DATA_FOLDER) (dirs st) then st
    else with_dir st DATA_FOLDER in
  let st2 := with_line (with_file st1 "data/teams.csv" teams)
                       (LineExported "data/teams.csv" (df_len teams)) in
  let st3 := with_line (with_file st2 "data/rosters.csv" rosters)
                       (LineExported "data/rosters.csv" (df_len rosters)) in
  let st4 := with_line (with_file st3 "data/player_stats.csv" stats)
                       (LineExported "data/player_stats.csv" (df_len stats)) in
  with_line st4 LineSuccess.

(** The two tags every stat row carries. *)
Definition tagged (row : dict) (scope type_ : string) : Prop :=
  dict_lookup row "season_scope" = Some (VStr scope) /\
  dict_lookup row "type" = Some (VStr type_).

(** The game-type code of a season entry, [None] when it is absent. *)
Definition game_type_of (season : dict) : value :=
  read_or season "gameTypeId" VNone.

(** The competition type a hashable code stands for. *)
Definition type_name (code : value) : string :=
  if equals_int code 2 then "regular"
  else if equals_int code 3 then "playoffs"
  else "other".

(** What a merge does with a payload whose first data row is the object
    [r]: it adds the columns [fields], read from [r], and keeps the
    rest of the record. *)
Definition merges_row (merged : result dict) (td r : dict)
           (fields : list (string * field_expr)) : Prop :=
  exists td',
    merged = Ok td' /\
    (forall out k, In (out, Get k) fields ->
                   dict_lookup td' out = Some (read_or r k VNone)) /\
    (forall k, ~ In k (map fst fields) -> dict_lookup td' k = dict_lookup td k).

(** The keys of the display that [fetch_player_stats] passes to
    [update] (lines 183-190 and 197-204). *)
Definition tag_keys : list string :=
  [ "player_id"; "player"; "team"; "type"; "season_scope"; "positionCode" ].

(** The columns of a roster row (lines 229-237). *)
Definition roster_keys : list string :=
  [ "player_id"; "player"; "positionCode"; "sweaterNumber"; "team";
    "team_abbr"; "headshot" ].

(** A stat row carries the identity of the player it was fetched for. *)
Definition carries_player (player_id : value) (full_name : string)
           (position : value) (row : dict) : Prop :=
  dict_lookup row "player_id" = Some player_id /\
  dict_lookup row "player" = Some (VStr full_name) /\
  dict_lookup row "positionCode" = Some position.

(** The roster row of lines 229-237 for the player object [d]. *)
Definition roster_row_of (team_name team_abbr : value) (d : dict)
           (id : value) (full_name : string) (position : value) : dict :=
  [ ("player_id", id);
    ("player", VStr full_name);
    ("positionCode", position);
    ("sweaterNumber", read_or d "sweaterNumber" (VStr "N/A"));
    ("team", team_name);
    ("team_abbr", team_abbr);
    ("headshot", read_or d "headshot" VNone) ].

(** What [roster_player] does when it returns: one roster row for the
    player object, and the player's stat rows. *)
Definition roster_step (team_name team_abbr : value) (acc : tables)
           (player : value) (st : State) (acc' : tables) (st' : State)
  : Prop :=
  exists d id first last position stats,
    player = VDict d /\
    dict_lookup d "id" = Some id /\
    eval_field player (Sub2 "firstName" "default") = Ok first /\
    eval_field player (Sub2 "lastName" "default") = Ok last /\
    dict_lookup d "positionCode" = Some position /\
    fst acc' =
      (fst acc ++ [roster_row_of team_name team_abbr d id
                     (py_str first ++ " " ++ py_str last) position])%list /\
    snd acc' = (snd acc ++ stats)%list /\
    fetch_player_stats id (py_str first ++ " " ++ py_str last)
                       team_name position st = (Ok stats, st') /\
    Forall (carries_player id (py_str first ++ " " ++ py_str last) position)
           stats.

(** A roster row belongs to a row of the team table: it repeats the
    team's abbreviation and name. *)
Definition roster_row_of_team (team : Series) (row : dict) : Prop :=
  exists abbr name,
    series_getitem team "team_abbr" = Ok abbr /\
    series_getitem team "team_name" = Ok name /\
    dict_lookup row "team_abbr" = Some abbr /\
    dict_lookup row "team" = Some name.

(** A stat row belongs to a roster row: same player id and name. *)
Definition stat_row_of_player (roster_row stat_row : dict) : Prop :=
  exists id name,
    dict_lookup roster_row "player_id" = Some id /\
    dict_lookup stat_row "player_id" = Some id /\
    dict_lookup roster_row "player" = Some name /\
    dict_lookup stat_row "player" = Some name.

(** The two tables are keyed consistently with the teams [teams]. *)
Definition joined (teams : list Series) (acc : tables) : Prop :=
  Forall (fun row => map fst row = roster_keys /\
                     exists team, In team teams /\ roster_row_of_team team row)
         (fst acc) /\
  Forall (fun stat_row => exists roster_row,
                            In roster_row (fst acc) /\
                            stat_row_of_player roster_row stat_row)
         (snd acc).

(** Line 107 and lines 110, 124, 141: the three URLs requested for a
    team, in the order they are requested. *)
Definition cayenne_of (team_abbr : value) : string :=
  quote ("teamAbbrev='" ++ py_str team_abbr ++ "' and seasonId="
           ++ SEASON_ID_OFFSEASON).

Definition team_urls (team_abbr : value) : list string :=
  [ stats_url "powerplay" (cayenne_of team_abbr);
    stats_url "goalsbyperiod" (cayenne_of team_abbr);
    stats_url "faceoffpercentages" (cayenne_of team_abbr) ].

(** A character [quote] leaves as it is. *)
Definition unreserved (c : ascii) : bool := quote_safe (nat_of_ascii c).

(** Every character of the string satisfies [p]. *)
Fixpoint all_chars (p : ascii -> bool) (s : string) : bool :=
  match s with
  | EmptyString => true
  | String c s' => andb (p c) (all_chars p s')
  end.

(** A character that may stand in quoted text: unreserved, or [%]. *)
Definition quoted_char (c : ascii) : bool :=
  orb (unreserved c) (Ascii.eqb c "%").

(* ===================================================================== *)
(** ** Properties *)
(* ===================================================================== *)

(* --------------------------------------------------------------------- *)
(** *** Dictionaries and dict displays *)

Lemma rbind_inv {A B} (r : result A) (k : A -> result B) b :
  rbind r k = Ok b -> exists a, r = Ok a /\ k a = Ok b.
Proof. destruct r as [a|e]; simpl; intros H; [now exists a | discriminate]. Qed.

Lemma py_get_dict d k default :
  py_get (VDict d) k default = Ok (read_or d k default).
Proof. unfold py_get, read_or. now destruct (dict_lookup d k). Qed.

Lemma dict_lookup_set d k v k' :
  dict_lookup (dict_set d k v) k' =
  if String.eqb k' k then Some v else dict_lookup d k'.
Proof.
  induction d as [|[k0 v0] d IH]; simpl.
  - reflexivity.
  - destruct (String.eqb k k0) eqn:E; simpl.
    + apply String.eqb_eq in E. subst k0.
      now destruct (String.eqb k' k).
    + rewrite IH. destruct (String.eqb k' k0) eqn:E0; [|reflexivity].
      apply String.eqb_eq in E0. subst k0.
      rewrite String.eqb_sym in E. now rewrite E.
Qed.

Lemma dict_lookup_update_other other : forall d k,
  ~ In k (map fst other) ->
  dict_lookup (dict_update d other) k = dict_lookup d k.
Proof using.
  unfold dict_update.
  induction other as [|[k0 v0] other IH]; intros d k Hk; simpl in *.
  - reflexivity.
  - rewrite IH by (intros Hin; apply Hk; now right). rewrite dict_lookup_set.
    destruct (String.eqb k k0) eqn:E; [|reflexivity].
    apply String.eqb_eq in E. subst. exfalso. apply Hk. now left.
Qed.

Lemma dict_set_nonempty d k v : dict_set d k v <> [].
Proof.
  destruct d as [|[k0 v0] d]; simpl; [discriminate|].
  destruct (String.eqb k k0); discriminate.
Qed.

Lemma dict_update_nonempty other : forall d,
  d <> [] -> dict_update d other <> [].
Proof.
  unfold dict_update.
  induction other as [|[k0 v0] other IH]; intros d Hd; simpl.
  - exact Hd.
  - apply IH, dict_set_nonempty.
Qed.

Lemma existsb_eqb_In k ks : existsb (String.eqb k) ks = true <-> In k ks.
Proof.
  rewrite existsb_exists. split.
  - intros (x & Hx & E). apply String.eqb_eq in E. now subst.
  - intros H. exists k. split; [exact H | apply String.eqb_refl].
Qed.

Lemma not_existsb_eqb k ks : existsb (String.eqb k) ks = false -> ~ In k ks.
Proof.
  intros H Hin. apply existsb_eqb_In in Hin. congruence.
Qed.

Lemma dict_lookup_update_in other : forall d k v,
  distinct (map fst other) = true ->
  In (k, v) other ->
  dict_lookup (dict_update d other) k = Some v.
Proof using.
  unfold dict_update.
  induction other as [|[k0 v0] other IH]; intros d k v Hd Hin; simpl in *.
  - contradiction.
  - apply andb_true_iff in Hd. destruct Hd as [Hfresh Hd].
    destruct Hin as [Heq | Hin].
    + inversion Heq; subst.
      fold (dict_update (dict_set d k v) other).
      rewrite dict_lookup_update_other, dict_lookup_set, String.eqb_refl.
      * reflexivity.
      * apply negb_true_iff in Hfresh. intros Hin.
        apply existsb_eqb_In in Hin. congruence.
    + now apply IH.
Qed.

Lemma dict_lookup_In d k v : dict_lookup d k = Some v -> In (k, v) d.
Proof.
  induction d as [|[k0 v0] d IH]; simpl; [discriminate|].
  destruct (String.eqb k k0) eqn:E.
  - apply String.eqb_eq in E. intros H. inversion H; subst. now left.
  - intros H. right. now apply IH.
Qed.

Lemma dict_display_inv entry fields : forall d,
  dict_display entry fields = Ok d ->
  Forall2 (field_binding entry) fields d.
Proof.
  unfold dict_display.
  induction fields as [|[k e] fields IH]; simpl; intros d H.
  - inversion H. constructor.
  - apply rbind_inv in H. destruct H as ([k' v] & H1 & H).
    apply rbind_inv in H1. destruct H1 as (v' & Hv & H1).
    inversion H1; subst k' v'.
    apply rbind_inv in H. destruct H as (d' & Hd & H).
    inversion H; subst d. constructor.
    + now split.
    + now apply IH.
Qed.

Lemma dict_display_total entry fields :
  (forall kf, In kf fields -> exists v, eval_field entry (snd kf) = Ok v) ->
  exists d, dict_display entry fields = Ok d.
Proof.
  unfold dict_display.
  induction fields as [|[k e] fields IH]; simpl; intros H.
  - now exists [].
  - destruct (H (k, e)) as (v & Hv); [now left|]. simpl in Hv.
    destruct IH as (d & Hd); [intros; apply H; now right|].
    rewrite Hv. simpl. rewrite Hd. simpl. now eexists.
Qed.

Lemma dict_display_raises entry fields k e x :
  In (k, e) fields -> eval_field entry e = Raise x ->
  exists x', dict_display entry fields = Raise x'.
Proof.
  unfold dict_display.
  induction fields as [|[k0 e0] fields IH]; simpl; intros Hin He.
  - contradiction.
  - destruct Hin as [Heq|Hin].
    + inversion Heq; subst. rewrite He. simpl. now eexists.
    + destruct (eval_field entry e0) as [v|x0]; simpl; [|now eexists].
      destruct (IH Hin He) as (x' & ->). simpl. now eexists.
Qed.

Lemma display_keys entry fields d :
  Forall2 (field_binding entry) fields d -> map fst d = map fst fields.
Proof.
  induction 1 as [|kf kv fs d' [Hk _] _ IH]; simpl; [reflexivity|].
  now rewrite Hk, IH.
Qed.

Lemma display_lookup entry fields d :
  Forall2 (field_binding entry) fields d ->
  distinct (map fst fields) = true ->
  forall k e, In (k, e) fields ->
  exists v, eval_field entry e = Ok v /\ dict_lookup d k = Some v.
Proof.
  induction 1 as [|[k0 e0] [k1 v1] fs d' [Hk Hv] _ IH]; simpl;
    intros Hd k e Hin; [contradiction|].
  simpl in Hk, Hv. subst k1.
  apply andb_true_iff in Hd. destruct Hd as [Hfresh Hd].
  apply negb_true_iff in Hfresh.
  destruct Hin as [Heq|Hin].
  - inversion Heq; subst. exists v1. now rewrite String.eqb_refl.
  - destruct (IH Hd k e Hin) as (v & Hev & Hl). exists v. split; [exact Hev|].
    destruct (String.eqb k k0) eqn:E; [|exact Hl].
    apply String.eqb_eq in E. subst k0.
    apply not_existsb_eqb in Hfresh. exfalso. apply Hfresh.
    apply in_map_iff. now exists (k, e).
Qed.

(* --------------------------------------------------------------------- *)
(** *** One standings entry *)

Lemma eval_Get d k : eval_field (VDict d) (Get k) = Ok (read_or d k VNone).
Proof. apply py_get_dict. Qed.

Lemma eval_GetOr d k default :
  eval_field (VDict d) (GetOr k default) = Ok (read_or d k default).
Proof. apply py_get_dict. Qed.

Lemma eval_Sub1 d k v :
  dict_lookup d k = Some v -> eval_field (VDict d) (Sub1 k) = Ok v.
Proof. simpl. now intros ->. Qed.

Lemma eval_Sub1_absent d k :
  dict_lookup d k = None ->
  eval_field (VDict d) (Sub1 k) = Raise (KeyError (VStr k)).
Proof. simpl. now intros ->. Qed.

Lemma eval_Sub2_absent d k1 k2 :
  dict_lookup d k1 = None ->
  eval_field (VDict d) (Sub2 k1 k2) = Raise (KeyError (VStr k1)).
Proof. simpl. now intros ->. Qed.

(** Both operands integers: the derived field is their difference. *)
Lemma reg_ot_wins_difference d k1 k2 a b :
  dict_lookup d k1 = Some (VInt a) ->
  dict_lookup d k2 = Some (VInt b) ->
  eval_field (VDict d) (GetMinusGet k1 k2) = Ok (VInt (a - b)).
Proof.
  intros H1 H2. unfold eval_field. rewrite !py_get_dict. unfold read_or.
  now rewrite H1, H2.
Qed.

(** An operand that is absent (or null) makes the subtraction raise. *)
Lemma reg_ot_wins_missing d k1 k2 :
  read_or d k1 VNone = VNone \/ read_or d k2 VNone = VNone ->
  eval_field (VDict d) (GetMinusGet k1 k2) = Raise TypeError.
Proof.
  intros H. unfold eval_field. rewrite !py_get_dict. simpl.
  destruct H as [-> | ->]; unfold py_sub; simpl.
  - reflexivity.
  - now destruct (as_number (read_or d k1 VNone)) as [[?|?]|].
Qed.

Lemma team_data_keys_distinct abbr :
  distinct (map fst (team_data_fields abbr)) = true.
Proof. reflexivity. Qed.

Lemma standings_row_inv entry abbr row :
  standings_row entry = Ok (abbr, row) ->
  eval_field entry (Sub2 "teamAbbrev" "default") = Ok abbr /\
  Forall2 (field_binding entry) (team_data_fields abbr) row.
Proof.
  unfold standings_row. intros H.
  apply rbind_inv in H. destruct H as (abbr' & Ha & H).
  apply rbind_inv in H. destruct H as (row' & Hr & H).
  inversion H; subst. split; [exact Ha|].
  now apply dict_display_inv.
Qed.

Lemma standings_row_nonempty entry abbr row :
  standings_row entry = Ok (abbr, row) -> row <> [].
Proof.
  intros H. apply standings_row_inv in H. destruct H as [_ H].
  inversion H. discriminate.
Qed.

(* --------------------------------------------------------------------- *)
(** *** Merging a supplementary payload *)

Lemma apart_spec ks1 ks2 k :
  apart ks1 ks2 = true -> In k ks1 -> ~ In k ks2.
Proof.
  unfold apart. rewrite forallb_forall. intros H Hin.
  apply not_existsb_eqb. apply negb_true_iff. now apply H.
Qed.

Lemma update_from_inv td row fields td' :
  update_from td row fields = Ok td' ->
  (forall k, ~ In k (map fst fields) -> dict_lookup td' k = dict_lookup td k)
  /\ (td <> [] -> td' <> []).
Proof.
  unfold update_from. intros H.
  apply rbind_inv in H. destruct H as (extra & He & H).
  inversion H; subst td'.
  apply dict_display_inv, display_keys in He. split.
  - intros k Hk. apply dict_lookup_update_other. now rewrite He.
  - apply dict_update_nonempty.
Qed.

(** A merge either leaves [team_data] as it is or updates it from a row. *)
Lemma merge_powerplay_inv td v td' :
  merge_powerplay td v = Ok td' ->
  td' = td \/ exists row, update_from td row powerplay_fields = Ok td'.
Proof.
  unfold merge_powerplay. destruct (truthy v).
  - intros H. apply rbind_inv in H. destruct H as (rows & _ & H).
    destruct (truthy rows).
    + apply rbind_inv in H. destruct H as (c & _ & H).
      apply rbind_inv in H. destruct H as (row & _ & H). right. now exists row.
    + inversion H. now left.
  - intros H. inversion H. now left.
Qed.

Lemma merge_with_get_inv fields td v td' :
  merge_with_get fields td v = Ok td' ->
  td' = td \/ exists row, update_from td row fields = Ok td'.
Proof.
  unfold merge_with_get. destruct (truthy v).
  - intros H. apply rbind_inv in H. destruct H as (rows & _ & H).
    destruct (truthy rows).
    + apply rbind_inv in H. destruct H as (c & _ & H).
      apply rbind_inv in H. destruct H as (row & _ & H). right. now exists row.
    + inversion H. now left.
  - intros H. inversion H. now left.
Qed.

Lemma update_from_total td r fields :
  all_gets fields = true ->
  exists td', update_from td (VDict r) fields = Ok td'.
Proof.
  intros Hg. unfold update_from.
  destruct (@dict_display_total (VDict r) fields) as (extra & ->).
  - intros [k e] Hin. unfold all_gets in Hg. rewrite forallb_forall in Hg.
    specialize (Hg _ Hin). simpl in *. destruct e; try discriminate.
    eexists. apply eval_Get.
  - simpl. now eexists.
Qed.

Lemma merge_powerplay_total td v :
  well_formed_stats v -> exists td', merge_powerplay td v = Ok td'.
Proof.
  unfold merge_powerplay.
  intros [Hf | (d & rows & -> & Hd & Hrows)].
  - rewrite Hf. now eexists.
  - destruct (truthy (VDict d)); [|now eexists].
    simpl. rewrite Hd. simpl.
    destruct Hrows as [-> | (r & rest & ->)]; simpl; [now eexists|].
    now apply update_from_total.
Qed.

Lemma merge_with_get_total fields td v :
  all_gets fields = true ->
  well_formed_stats v -> exists td', merge_with_get fields td v = Ok td'.
Proof.
  unfold merge_with_get.
  intros Hg [Hf | (d & rows & -> & Hd & Hrows)].
  - rewrite Hf. now eexists.
  - destruct (truthy (VDict d)); [|now eexists].
    rewrite py_get_dict. unfold read_or. rewrite Hd. simpl.
    rewrite Hd. simpl.
    destruct Hrows as [-> | (r & rest & ->)]; simpl; [now eexists|].
    now apply update_from_total.
Qed.

(* --------------------------------------------------------------------- *)
(** *** Running computations *)

Lemma bind_ok {A B} (m : M A) (k : A -> M B) st a st' :
  m st = (Ok a, st') -> bind m k st = k a st'.
Proof. intros H. unfold bind. now rewrite H. Qed.

Lemma bind_raise {A B} (m : M A) (k : A -> M B) st e st' :
  m st = (Raise e, st') -> bind m k st = (Raise e, st').
Proof. intros H. unfold bind. now rewrite H. Qed.

Lemma bind_inv {A B} (m : M A) (k : A -> M B) st b st2 :
  bind m k st = (Ok b, st2) ->
  exists a st1, m st = (Ok a, st1) /\ k a st1 = (Ok b, st2).
Proof.
  unfold bind. destruct (m st) as [[a|e] st1]; intros H.
  - now exists a, st1.
  - discriminate.
Qed.

Lemma lift_ok {A} (r : result A) a st :
  r = Ok a -> lift r st = (Ok a, st).
Proof. now intros ->. Qed.

Lemma lift_inv {A} (r : result A) st a st' :
  lift r st = (Ok a, st') -> r = Ok a /\ st' = st.
Proof. unfold lift. intros H. now inversion H. Qed.

Lemma ret_inv {A} (x a : A) st st' :
  ret x st = (Ok a, st') -> a = x /\ st' = st.
Proof. unfold ret. intros H. now inversion H. Qed.

(** Take a successful run apart, one [bind] at a time. *)
Ltac run_inv H :=
  repeat match type of H with
  | bind _ _ _ = (Ok _, _) =>
      let a := fresh "a" in let s := fresh "s" in
      let H1 := fresh "H" in
      apply bind_inv in H; destruct H as (a & s & H1 & H);
      try (apply lift_inv in H1; destruct H1 as [H1 ->])
  | ret _ _ = (Ok _, _) =>
      let E := fresh "E" in
      apply ret_inv in H; destruct H as [E ->]
  | _ => progress cbv zeta in H
  end.

Lemma fetch_json_run (url : string) (st : State) :
  fetch_json url st =
  match fetch_attempt (fst (http_get (world st) url)) with
  | inr v => (Ok v, with_world st (snd (http_get (world st) url)))
  | inl e =>
      (Ok VNone,
       with_line (with_world st (snd (http_get (world st) url)))
                 (LineFetchFailed url (exn_text e)))
  end.
Proof.
  unfold fetch_json, bind, requests_get.
  destruct (http_get (world st) url) as [out w]; simpl.
  destruct (fetch_attempt out); reflexivity.
Qed.

Lemma fetch_json_total (url : string) (st : State) :
  exists v st', fetch_json url st = (Ok v, st').
Proof.
  rewrite fetch_json_run.
  destruct (fetch_attempt _); eauto.
Qed.

(* --------------------------------------------------------------------- *)
(** *** Computations that leave the file system alone *)

Lemma fs_stable_ret {A} (a : A) : fs_stable (ret a).
Proof. now intros st. Qed.

Lemma fs_stable_lift {A} (r : result A) : fs_stable (lift r).
Proof. now intros st. Qed.

Lemma fs_stable_print l : fs_stable (print l).
Proof. now intros st. Qed.

Lemma fs_stable_sleep : fs_stable sleep_200ms.
Proof. now intros st. Qed.

Lemma fs_stable_bind {A B} (m : M A) (k : A -> M B) :
  fs_stable m -> (forall a, fs_stable (k a)) -> fs_stable (bind m k).
Proof.
  intros Hm Hk st. unfold bind.
  destruct (Hm st) as [Hf Hd].
  destruct (m st) as [[a|e] st1]; simpl in *.
  - destruct (Hk a st1) as [Hf' Hd']. split; congruence.
  - now split.
Qed.

Lemma fs_stable_fetch_json url : fs_stable (fetch_json url).
Proof.
  intros st. rewrite fetch_json_run.
  destruct (fetch_attempt _); now split.
Qed.

Lemma fs_stable_if {A} (b : bool) (m1 m2 : M A) :
  fs_stable m1 -> fs_stable m2 -> fs_stable (if b then m1 else m2).
Proof. now destruct b. Qed.

Create HintDb fs.
#[local] Hint Resolve fs_stable_ret fs_stable_lift fs_stable_print
  fs_stable_sleep fs_stable_fetch_json : fs.

Ltac fs_auto :=
  repeat first
    [ solve [ auto with fs ]
    | progress cbv zeta
    | apply fs_stable_if
    | apply fs_stable_bind; [ | intros ? ] ].

Lemma fs_stable_for_each {A B} (f : A -> M B) xs :
  (forall x, fs_stable (f x)) -> fs_stable (for_each f xs).
Proof. intros Hf. induction xs; simpl; fs_auto. Qed.

Lemma fs_stable_for_acc {A S} (f : S -> A -> M S) xs :
  (forall acc x, fs_stable (f acc x)) -> forall acc, fs_stable (for_acc f xs acc).
Proof. intros Hf. induction xs; intros acc; simpl; fs_auto. Qed.

Lemma fs_stable_team_entry entry : fs_stable (team_entry entry).
Proof. unfold team_entry. fs_auto. Qed.

Lemma fs_stable_fetch_teams : fs_stable fetch_teams.
Proof.
  unfold fetch_teams. fs_auto.
  apply fs_stable_for_each, fs_stable_team_entry.
Qed.

Lemma fs_stable_fetch_team_roster abbr : fs_stable (fetch_team_roster abbr).
Proof. unfold fetch_team_roster. fs_auto. Qed.

Lemma fs_stable_fetch_player_stats pid name team pos :
  fs_stable (fetch_player_stats pid name team pos).
Proof. unfold fetch_player_stats. fs_auto. Qed.

#[local] Hint Resolve fs_stable_fetch_teams fs_stable_fetch_team_roster
  fs_stable_fetch_player_stats : fs.

Lemma fs_stable_roster_player name abbr acc p :
  fs_stable (roster_player name abbr acc p).
Proof. unfold roster_player. fs_auto. Qed.

Lemma fs_stable_roster_team acc team : fs_stable (roster_team acc team).
Proof.
  unfold roster_team. fs_auto.
  apply fs_stable_for_acc. intros; apply fs_stable_roster_player.
Qed.

Lemma fs_stable_build df : fs_stable (build_rosters_and_stats df).
Proof.
  unfold build_rosters_and_stats. fs_auto.
  apply fs_stable_for_acc. intros; apply fs_stable_roster_team.
Qed.

(* --------------------------------------------------------------------- *)
(** *** Loops *)

Lemma for_each_inv {A B} (f : A -> M B) xs : forall st ys st',
  for_each f xs st = (Ok ys, st') ->
  Forall2 (fun x y => exists s s', f x s = (Ok y, s')) xs ys.
Proof.
  induction xs as [|x xs IH]; simpl; intros st ys st' H.
  - apply ret_inv in H. destruct H as [-> _]. constructor.
  - run_inv H. subst ys. constructor; eauto.
Qed.

Lemma for_each_total {A B} (f : A -> M B) xs :
  (forall x, In x xs -> forall s, exists y s', f x s = (Ok y, s')) ->
  forall st, exists ys st', for_each f xs st = (Ok ys, st').
Proof.
  induction xs as [|x xs IH]; simpl; intros Hf st.
  - unfold ret. eauto.
  - destruct (Hf x (or_introl eq_refl) st) as (y & s1 & Hy).
    destruct (IH (fun x' Hx => Hf x' (or_intror Hx)) s1) as (ys & s2 & Hys).
    rewrite (@bind_ok _ _ _ _ _ _ _ Hy), (@bind_ok _ _ _ _ _ _ _ Hys). unfold ret. eauto.
Qed.

(* --------------------------------------------------------------------- *)
(** *** The team aggregator *)

Lemma merge_keys_apart abbr :
  apart (map fst (team_data_fields abbr))
        (map fst powerplay_fields ++ map fst goalsbyperiod_fields
           ++ map fst faceoff_fields)%list = true.
Proof. reflexivity. Qed.

Lemma merge_step fields td td' (keys : list string) :
  td' = td \/ (exists row, update_from td row fields = Ok td') ->
  (forall k, In k keys -> ~ In k (map fst fields)) ->
  (forall k, In k keys -> dict_lookup td' k = dict_lookup td k) /\
  (td <> [] -> td' <> []).
Proof using.
  intros [-> | (row & H)] Hk; [now split|].
  apply update_from_inv in H. destruct H as [Hl Hn]. split; [|exact Hn].
  intros k Hin. apply Hl. now apply Hk.
Qed.

Lemma team_entry_inv entry st row st' :
  team_entry entry st = (Ok row, st') ->
  row_of_entry entry row /\ row <> [].
Proof.
  unfold team_entry. intros H. run_inv H. subst row.
  match goal with
  | Hr : standings_row entry = Ok ?a |- _ =>
      destruct a as [abbr base]; rename Hr into Hrow
  end.
  cbn [fst snd] in *.
  pose proof (standings_row_nonempty _ Hrow) as Hne.
  pose proof (standings_row_inv _ Hrow) as [_ Hb].
  apply display_keys in Hb.
  assert (Hap : forall k, In k (map fst base) ->
            ~ In k (map fst powerplay_fields ++ map fst goalsbyperiod_fields
                      ++ map fst faceoff_fields)%list).
  { intros k Hin. eapply apart_spec; [apply (merge_keys_apart abbr)|].
    now rewrite <- Hb. }
  repeat match goal with
  | Hm : merge_powerplay _ _ = Ok _ |- _ =>
      apply merge_powerplay_inv in Hm;
      apply (@merge_step _ _ _ (map fst base)) in Hm;
      [ destruct Hm
      | intros k Hin Hk; apply (Hap k Hin), in_or_app; now left ]
  | Hm : merge_goalsbyperiod _ _ = Ok _ |- _ =>
      apply merge_with_get_inv in Hm;
      apply (@merge_step _ _ _ (map fst base)) in Hm;
      [ destruct Hm
      | intros k Hin Hk; apply (Hap k Hin), in_or_app; right;
        apply in_or_app; now left ]
  | Hm : merge_faceoff _ _ = Ok _ |- _ =>
      apply merge_with_get_inv in Hm;
      apply (@merge_step _ _ _ (map fst base)) in Hm;
      [ destruct Hm
      | intros k Hin Hk; apply (Hap k Hin), in_or_app; right;
        apply in_or_app; now right ]
  end.
  split.
  - exists abbr, base. split; [exact Hrow|].
    intros k Hin.
    repeat match goal with
    | L : forall k, In k _ -> dict_lookup _ k = dict_lookup _ k |- _ =>
        rewrite (L k Hin); clear L
    end.
    reflexivity.
  - auto.
Qed.

Lemma fetched_stats_well_formed resource expr st v st' :
  serves_well_formed_stats ->
  fetch_json (stats_url resource expr) st = (Ok v, st') ->
  well_formed_stats v.
Proof.
  intros Hs. rewrite fetch_json_run. specialize (Hs (world st) resource expr).
  destruct (fetch_attempt _); intros H; inversion H; subst.
  - now left.
  - exact Hs.
Qed.

Lemma team_entry_total entry abbr base :
  serves_well_formed_stats ->
  standings_row entry = Ok (abbr, base) ->
  forall st, exists row st', team_entry entry st = (Ok row, st').
Proof.
  intros Hs Hrow st. unfold team_entry.
  rewrite (@bind_ok _ _ _ _ st (abbr, base) st)
    by (unfold lift; now rewrite Hrow).
  cbv zeta. simpl fst. simpl snd.
  set (expr := quote _).
  destruct (fetch_json_total (stats_url "powerplay" expr) st) as (v1 & s1 & F1).
  rewrite (@bind_ok _ _ _ _ _ _ _ F1).
  destruct (merge_powerplay_total base
              (fetched_stats_well_formed _ _ _ Hs F1)) as (t1 & M1).
  rewrite (@bind_ok _ _ _ _ s1 t1 s1) by (unfold lift; now rewrite M1).
  destruct (fetch_json_total (stats_url "goalsbyperiod" expr) s1)
    as (v2 & s2 & F2).
  rewrite (@bind_ok _ _ _ _ _ _ _ F2).
  destruct (@merge_with_get_total goalsbyperiod_fields t1 v2 eq_refl
              (fetched_stats_well_formed _ _ _ Hs F2)) as (t2 & M2).
  rewrite (@bind_ok _ _ _ _ s2 t2 s2)
    by (unfold lift, merge_goalsbyperiod; now rewrite M2).
  destruct (fetch_json_total (stats_url "faceoffpercentages" expr) s2)
    as (v3 & s3 & F3).
  rewrite (@bind_ok _ _ _ _ _ _ _ F3).
  destruct (@merge_with_get_total faceoff_fields t2 v3 eq_refl
              (fetched_stats_well_formed _ _ _ Hs F3)) as (t3 & M3).
  rewrite (@bind_ok _ _ _ _ s3 t3 s3)
    by (unfold lift, merge_faceoff; now rewrite M3).
  unfold ret. eauto.
Qed.

(** [fetch_teams] once the standings document is in hand. *)
Lemma fetch_teams_run st data st1 :
  fetch_json standings_url st = (Ok data, st1) ->
  fetch_teams st =
  (if negb (truthy data) then ret DataFrame_empty
   else
     standings <- lift (py_get data "standings" (VList [])) ;;
     entries <- lift (py_iter standings) ;;
     teams <- for_each team_entry entries ;;
     ret (mkDataFrame teams)) st1.
Proof. intros H. unfold fetch_teams. now rewrite (@bind_ok _ _ _ _ _ _ _ H). Qed.

(* --------------------------------------------------------------------- *)
(** *** Tables *)

Lemma add_column_nonempty cols k : add_column cols k <> [].
Proof.
  unfold add_column. destruct (existsb (String.eqb k) cols) eqn:E.
  - intros ->. discriminate.
  - destruct cols; discriminate.
Qed.

Lemma add_columns_nonempty ks : forall cols,
  cols <> [] \/ ks <> [] -> fold_left add_column ks cols <> [].
Proof.
  induction ks as [|k ks IH]; simpl; intros cols H.
  - destruct H as [H|H]; [exact H | congruence].
  - apply IH. left. apply add_column_nonempty.
Qed.

Lemma columns_nonempty rs : forall cols,
  cols <> [] ->
  fold_left (fun cols (r : dict) => fold_left add_column (map fst r) cols)
            rs cols <> [].
Proof.
  induction rs as [|r rs IH]; simpl; intros cols H; [exact H|].
  apply IH, add_columns_nonempty. now left.
Qed.

(** A table whose records all have a key is empty exactly when it has
    no record. *)
Lemma df_is_empty_len rs :
  Forall (fun r : dict => r <> []) rs ->
  df_is_empty (mkDataFrame rs) = match rs with [] => true | _ => false end.
Proof.
  intros H. destruct rs as [|r rs]; [reflexivity|].
  unfold df_is_empty, df_columns. simpl.
  inversion H; subst.
  match goal with |- context [fold_left ?f rs ?c] =>
    destruct (fold_left f rs c) eqn:E
  end; [|reflexivity].
  exfalso. revert E. apply columns_nonempty.
  apply add_columns_nonempty. right. destruct r; [congruence|discriminate].
Qed.

Lemma fetch_teams_records st df st' :
  fetch_teams st = (Ok df, st') -> Forall (fun r : dict => r <> []) (df_records df).
Proof.
  destruct (fetch_json_total standings_url st) as (data & st1 & F).
  rewrite (@fetch_teams_run _ _ _ F).
  destruct (truthy data); cbn [negb].
  - intros H. run_inv H. subst df. simpl.
    match goal with Hf : for_each _ _ _ = _ |- _ =>
      apply for_each_inv in Hf; rename Hf into HF
    end.
    clear - HF.
    induction HF as [|x y xs ys Hx _ IH]; constructor; auto.
    destruct Hx as (s0 & s' & Hx). apply team_entry_inv in Hx. apply Hx.
  - intros H. apply ret_inv in H. destruct H as [-> _]. constructor.
Qed.

Lemma fetch_teams_no_entries st data st1 :
  fetch_json standings_url st = (Ok data, st1) ->
  no_entries data ->
  fetch_teams st = (Ok (mkDataFrame []), st1).
Proof.
  intros F H. rewrite (@fetch_teams_run _ _ _ F).
  destruct (truthy data) eqn:T; cbn [negb]; [|reflexivity].
  destruct H as [H | (s & Hs & Hi)]; [congruence|].
  unfold bind, lift. rewrite Hs, Hi. reflexivity.
Qed.

Lemma team_data_fields_shape abbr :
  forallb (fun kf =>
    orb (plain_field (snd kf))
        (existsb (fun e => match e, snd kf with
                           | Sub1 k, Sub1 k' => String.eqb k k'
                           | Sub2 k1 k2, Sub2 k1' k2' =>
                               andb (String.eqb k1 k1') (String.eqb k2 k2')
                           | GetMinusGet k1 k2, GetMinusGet k1' k2' =>
                               andb (String.eqb k1 k1') (String.eqb k2 k2')
                           | _, _ => false
                           end)
           [ Sub2 "teamName" "default"; Sub1 "conferenceName";
             Sub1 "divisionName"; Sub1 "teamLogo";
             GetMinusGet "regulationPlusOtWins" "regulationWins" ]))
    (team_data_fields abbr) = true.
Proof. reflexivity. Qed.

Lemma standings_row_total d abbr name conf div logo diff :
  eval_field (VDict d) (Sub2 "teamAbbrev" "default") = Ok abbr ->
  eval_field (VDict d) (Sub2 "teamName" "default") = Ok name ->
  dict_lookup d "conferenceName" = Some conf ->
  dict_lookup d "divisionName" = Some div ->
  dict_lookup d "teamLogo" = Some logo ->
  eval_field (VDict d)
    (GetMinusGet "regulationPlusOtWins" "regulationWins") = Ok diff ->
  exists row, standings_row (VDict d) = Ok (abbr, row).
Proof.
  intros Ha Hn Hc Hd Hl Hdiff. unfold standings_row. rewrite Ha.
  cbn [rbind].
  destruct (@dict_display_total (VDict d) (team_data_fields abbr))
    as (row & ->); [|cbn [rbind]; eauto].
  intros [k e] Hin.
  pose proof (team_data_fields_shape abbr) as Hs.
  rewrite forallb_forall in Hs. specialize (Hs _ Hin). cbn [snd] in *.
  apply orb_true_iff in Hs. destruct Hs as [Hs | Hs].
  - destruct e; try discriminate.
    + now eexists.
    + eexists. apply eval_Get.
    + eexists. apply eval_GetOr.
  - cbn [existsb] in Hs.
    repeat (apply orb_true_iff in Hs; destruct Hs as [Hs | Hs]);
      try discriminate;
      destruct e; try discriminate;
      repeat (apply andb_true_iff in Hs; destruct Hs as [? Hs]);
      repeat match goal with
      | E : String.eqb _ _ = true |- _ => apply String.eqb_eq in E; subst
      end;
      eauto using eval_Sub1.
Qed.

Lemma complete_entry_row entry :
  complete_entry entry -> exists abbr row, standings_row entry = Ok (abbr, row).
Proof.
  intros (d & abbr & name & conf & div & logo & a & b & -> & Ha & Hn & Hc
          & Hd & Hl & H1 & H2).
  exists abbr.
  eapply standings_row_total; eauto using reg_ot_wins_difference.
Qed.

(* --------------------------------------------------------------------- *)
(** *** The fetcher *)

(** C9: for every URL, [fetch_json] returns normally.  When
    [requests.get] raises, when the status is a 4xx or 5xx, or when the
    body does not decode, the result is [None] and exactly one line
    naming the URL is printed; otherwise the result is the decoded JSON
    value and nothing is printed.  No run ends in an exception. *)
Theorem fetch_json_never_raises (url : string) (st : State) :
  exists v st',
    fetch_json url st = (Ok v, st') /\
    world st' = snd (http_get (world st) url) /\
    match fst (http_get (world st) url) with
    | GetRaised text =>
        v = VNone /\
        stdout st' = (stdout st ++ [LineFetchFailed url text])%list
    | GetReturned r =>
        if is_error_status r then
          v = VNone /\
          stdout st' =
            (stdout st ++ [LineFetchFailed url (http_error_text r)])%list
        else
          match json_body r with
          | inl text =>
              v = VNone /\
              stdout st' = (stdout st ++ [LineFetchFailed url text])%list
          | inr parsed => v = parsed /\ stdout st' = stdout st
          end
    end.
Proof.
  rewrite fetch_json_run.
  destruct (http_get (world st) url) as [out w]. cbn [fst snd].
  destruct out as [text | r]; cbn [fetch_attempt].
  - eexists _, _. repeat split.
  - destruct (is_error_status r).
    + eexists _, _. repeat split.
    + destruct (json_body r); eexists _, _; repeat split.
Qed.

(* --------------------------------------------------------------------- *)
(** *** Falsy payloads *)

(** C10: a fetch that returns a falsy payload (an empty object or array,
    and likewise [None], the failure signal) makes the team aggregator
    return the empty table and the roster and stats aggregators return
    no rows: each tests the truth value of the payload. *)
Theorem falsy_payload_like_failure (v : value) (st st' : State) :
  truthy v = false ->
  (fetch_json standings_url st = (Ok v, st') ->
   fetch_teams st = (Ok DataFrame_empty, st') /\
   df_is_empty DataFrame_empty = true)
  /\
  (forall abbr,
     fetch_json (roster_url (lower abbr)) st = (Ok v, st') ->
     fetch_team_roster (VStr abbr) st = (Ok (VList []), st'))
  /\
  (forall player_id full_name team_name position,
     fetch_json (player_url player_id) st = (Ok v, st') ->
     fetch_player_stats player_id full_name team_name position st
     = (Ok [], st')).
Proof.
  intros Hv. split; [|split].
  - intros H. rewrite (@fetch_teams_run _ _ _ H). now rewrite Hv.
  - intros abbr H. unfold fetch_team_roster.
    unfold bind at 1. unfold lift. cbn [py_lower].
    rewrite (@bind_ok _ _ _ _ _ _ _ H). now rewrite Hv.
  - intros pid name team pos H. unfold fetch_player_stats.
    rewrite (@bind_ok _ _ _ _ _ _ _ H). now rewrite Hv.
Qed.

(* --------------------------------------------------------------------- *)
(** *** The team table *)

(** C5: when the standings payload lists the entries [entries], any
    table [fetch_teams] returns has one row per entry, and row [i]
    extends the record built from entry [i] (same order); and it does
    return a table when every entry is complete and the statistics host
    answers with well-formed payloads. *)
Theorem team_table_follows_standings
        (st st1 : State) (data : value) (entries : list value) :
  fetch_json standings_url st = (Ok data, st1) ->
  truthy data = true ->
  py_get data "standings" (VList []) = Ok (VList entries) ->
  (forall df st2,
     fetch_teams st = (Ok df, st2) ->
     df_len df = List.length entries /\
     Forall2 row_of_entry entries (df_records df))
  /\
  (serves_well_formed_stats ->
   Forall complete_entry entries ->
   exists df st2, fetch_teams st = (Ok df, st2)).
Proof.
  intros F T Hs. rewrite (@fetch_teams_run _ _ _ F). rewrite T. cbn [negb].
  split.
  - intros df st2 H. run_inv H. subst df.
    match goal with H1 : py_get data _ _ = Ok _ |- _ =>
      rewrite Hs in H1; injection H1 as <-
    end.
    match goal with H1 : py_iter (VList entries) = Ok _ |- _ =>
      cbn [py_iter] in H1; injection H1 as <-
    end.
    match goal with Hf : for_each _ _ _ = (Ok ?rs, _) |- _ =>
      apply for_each_inv in Hf; rename Hf into HF; rename rs into rows
    end.
    assert (HR : Forall2 row_of_entry entries rows).
    { clear - HF. induction HF as [|x y xs ys Hx _ IH]; constructor; auto.
      destruct Hx as (s0 & s' & Hx). apply team_entry_inv in Hx. apply Hx. }
    split; [|exact HR].
    unfold df_len. cbn [df_records]. symmetry.
    eapply Forall2_length; eauto.
  - intros Hw Hc. unfold bind at 1. unfold lift at 1. rewrite Hs.
    unfold bind at 1. unfold lift at 1. cbn [py_iter].
    destruct (@for_each_total _ _ team_entry entries) with (st := st1)
      as (rows & st2 & Hrows).
    + intros x Hx s. rewrite Forall_forall in Hc.
      destruct (complete_entry_row (Hc x Hx)) as (abbr & base & Hrow).
      eapply team_entry_total; eauto.
    + rewrite (@bind_ok _ _ _ _ _ _ _ Hrows). unfold ret. eauto.
Qed.

(* --------------------------------------------------------------------- *)
(** *** The orchestrator *)

Lemma print_run l st : print l st = (Ok tt, with_line st l).
Proof. reflexivity. Qed.

Lemma export_to_csv_run df name st :
  export_to_csv df name st
  = (Ok tt, with_line (with_file st name df) (LineExported name (df_len df))).
Proof. reflexivity. Qed.

Lemma exported_files st teams rosters stats :
  files (exported st teams rosters stats)
  = (files st ++ [ ("data/teams.csv", teams);
                   ("data/rosters.csv", rosters);
                   ("data/player_stats.csv", stats) ])%list
  /\ In "data" (dirs (exported st teams rosters stats)).
Proof.
  unfold exported.
  destruct (existsb (String.eqb DATA_FOLDER) (dirs st)) eqn:E;
    cbn [files dirs with_line with_file with_dir];
    rewrite <- !app_assoc; (split; [reflexivity|]).
  - now apply existsb_eqb_In in E.
  - apply in_or_app. right. now left.
Qed.

(** C7: [main] first runs the team aggregator.  If the standings fetch
    failed or listed no entry -- the team table has no rows -- [main]
    prints the error line and returns: no file is written and no
    directory made.  If the table has rows, [main] goes on to
    [build_rosters_and_stats] and, when that returns, writes the three
    files. *)
Theorem main_stops_without_teams (st : State) :
  let started := with_line st LineStarting in
  (forall data st1,
     fetch_json standings_url started = (Ok data, st1) ->
     no_entries data ->
     main st = (Ok tt, with_line st1 LineNoTeams) /\
     files (with_line st1 LineNoTeams) = files st /\
     dirs (with_line st1 LineNoTeams) = dirs st)
  /\
  (forall df st1,
     fetch_teams started = (Ok df, st1) ->
     (df_len df = 0%nat ->
      main st = (Ok tt, with_line st1 LineNoTeams) /\
      files (with_line st1 LineNoTeams) = files st /\
      dirs (with_line st1 LineNoTeams) = dirs st)
     /\
     (df_len df <> 0%nat ->
      (forall e st2,
         build_rosters_and_stats df st1 = (Raise e, st2) ->
         main st = (Raise e, st2) /\ files st2 = files st)
      /\
      (forall rosters stats st2,
         build_rosters_and_stats df st1 = (Ok (rosters, stats), st2) ->
         exists st3,
           main st = (Ok tt, st3) /\
           files st3 =
             (files st ++ [ ("data/teams.csv", df);
                            ("data/rosters.csv", rosters);
                            ("data/player_stats.csv", stats) ])%list /\
           In "data" (dirs st3)))).
Proof.
  intros started.
  assert (Hteams : forall df st1,
            fetch_teams started = (Ok df, st1) ->
            files st1 = files st /\ dirs st1 = dirs st /\
            df_is_empty df = match df_records df with
                             | [] => true | _ => false end).
  { intros df st1 H.
    destruct (fs_stable_fetch_teams started) as [Hf Hd].
    rewrite H in Hf, Hd. cbn [snd] in Hf, Hd.
    repeat split; [exact Hf | exact Hd |].
    destruct df as [rs]. apply df_is_empty_len.
    apply (fetch_teams_records _ H). }
  assert (Hstop : forall df st1,
            fetch_teams started = (Ok df, st1) ->
            df_len df = 0%nat ->
            main st = (Ok tt, with_line st1 LineNoTeams) /\
            files (with_line st1 LineNoTeams) = files st /\
            dirs (with_line st1 LineNoTeams) = dirs st).
  { intros df st1 H Hlen.
    destruct (Hteams _ _ H) as (Hf & Hd & He).
    unfold main. rewrite (@bind_ok _ _ _ _ _ _ _ (print_run LineStarting st)).
    fold started. rewrite (@bind_ok _ _ _ _ _ _ _ H).
    unfold df_len in Hlen. destruct (df_records df); [|discriminate].
    rewrite He. repeat split; assumption. }
  split.
  - intros data st1 F Hno.
    apply (Hstop (mkDataFrame [])); [|reflexivity].
    now apply fetch_teams_no_entries with (data := data).
  - intros df st1 H. split; [now apply Hstop|].
    intros Hlen. destruct (Hteams _ _ H) as (Hf & Hd & He).
    assert (Hne : df_is_empty df = false).
    { rewrite He. unfold df_len in Hlen.
      destruct (df_records df); [contradiction | reflexivity]. }
    assert (Hmain : main st =
              bind (build_rosters_and_stats df)
                (fun tabs =>
                   present <- path_exists DATA_FOLDER ;;
                   (if negb present then makedirs DATA_FOLDER else ret tt) ;;;
                   export_to_csv df (path_join DATA_FOLDER "teams.csv") ;;;
                   export_to_csv (fst tabs)
                                 (path_join DATA_FOLDER "rosters.csv") ;;;
                   export_to_csv (snd tabs)
                                 (path_join DATA_FOLDER "player_stats.csv") ;;;
                   print LineSuccess) st1).
    { unfold main.
      rewrite (@bind_ok _ _ _ _ _ _ _ (print_run LineStarting st)).
      fold started. rewrite (@bind_ok _ _ _ _ _ _ _ H). now rewrite Hne. }
    destruct (fs_stable_build df st1) as [Bf Bd].
    split.
    + intros e st2 B. rewrite Hmain, (@bind_raise _ _ _ _ _ _ _ B).
      rewrite B in Bf. cbn [snd] in Bf. split; [reflexivity | congruence].
    + intros rosters stats st2 B. rewrite Hmain, (@bind_ok _ _ _ _ _ _ _ B).
      rewrite B in Bf. cbn [snd fst] in *.
      exists (exported st2 df rosters stats).
      destruct (exported_files st2 df rosters stats) as [Ef Ed].
      split; [|split; [congruence | exact Ed]].
      unfold exported, bind, path_exists.
      destruct (existsb (String.eqb DATA_FOLDER) (dirs st2)); reflexivity.
Qed.

(* --------------------------------------------------------------------- *)
(** *** The roster aggregator *)

Lemma roster_player_adds_one name abbr acc p st acc' st' :
  roster_player name abbr acc p st = (Ok acc', st') ->
  List.length (fst acc') = S (List.length (fst acc)).
Proof.
  unfold roster_player. intros H. run_inv H. subst acc'. cbn [fst].
  rewrite length_app. simpl. lia.
Qed.

Lemma roster_players_one_row_each name abbr players : forall acc st acc' st',
  for_acc (roster_player name abbr) players acc st = (Ok acc', st') ->
  List.length (fst acc') = (List.length (fst acc) + List.length players)%nat.
Proof.
  induction players as [|p players IH]; simpl; intros acc st acc' st' H.
  - apply ret_inv in H. destruct H as [-> _]. lia.
  - run_inv H.
    match goal with
    | H1 : roster_player _ _ _ _ _ = _ |- _ =>
        apply roster_player_adds_one in H1; rename H1 into Hone
    end.
    apply IH in H. lia.
Qed.

(** C6: once the roster document of a team is fetched,
    [fetch_team_roster] returns the forwards, then the defensemen, then
    the goalies, as one list, and the loop over it appends one roster
    row per player.  If the fetch failed (more generally: gave a falsy
    payload) the team has no players: the loop over the teams goes on to
    the next team with both tables unchanged. *)
Theorem roster_is_concatenation
        (abbr : string) (st st' : State) (data : value) :
  fetch_json (roster_url (lower abbr)) st = (Ok data, st') ->
  (truthy data = true ->
   forall forwards defensemen goalies,
     py_get data "forwards" (VList []) = Ok (VList forwards) ->
     py_get data "defensemen" (VList []) = Ok (VList defensemen) ->
     py_get data "goalies" (VList []) = Ok (VList goalies) ->
     fetch_team_roster (VStr abbr) st
     = (Ok (VList (forwards ++ defensemen ++ goalies)), st'))
  /\
  (forall name players acc s acc' s',
     for_acc (roster_player name (VStr abbr)) players acc s = (Ok acc', s') ->
     List.length (fst acc')
     = (List.length (fst acc) + List.length players)%nat)
  /\
  (truthy data = false ->
   fetch_team_roster (VStr abbr) st = (Ok (VList []), st') /\
   forall team name rest acc before,
     series_getitem team "team_abbr" = Ok (VStr abbr) ->
     series_getitem team "team_name" = Ok name ->
     st = with_line before (LineFetchingRoster name) ->
     for_acc roster_team (team :: rest) acc before
     = for_acc roster_team rest acc (with_pause st')).
Proof.
  intros F.
  assert (Hrun : fetch_team_roster (VStr abbr) st =
                 (if negb (truthy data) then ret (VList [])
                  else lift (roster_players data)) st').
  { unfold fetch_team_roster. unfold bind at 1. unfold lift at 1.
    cbn [py_lower]. now rewrite (@bind_ok _ _ _ _ _ _ _ F). }
  split; [|split; [|intros H; split]].
  - intros T forwards defensemen goalies Hf Hd Hg.
    rewrite Hrun, T. cbn [negb]. unfold lift, roster_players.
    rewrite Hf, Hd, Hg. cbn [rbind py_add]. now rewrite app_assoc.
  - intros name players acc s acc' s'.
    apply roster_players_one_row_each.
  - rewrite Hrun, H. reflexivity.
  - intros team name rest acc before Ha Hn ->.
    cbn [for_acc].
    assert (Hteam : roster_team acc team before = (Ok acc, with_pause st')).
    { unfold roster_team.
      rewrite (@bind_ok _ _ _ _ _ _ _ (@lift_ok _ _ _ before Ha)).
      rewrite (@bind_ok _ _ _ _ _ _ _ (@lift_ok _ _ _ before Hn)).
      rewrite (@bind_ok _ _ _ _ _ _ _ (print_run _ before)).
      assert (Hr : fetch_team_roster (VStr abbr)
                     (with_line before (LineFetchingRoster name))
                   = (Ok (VList []), st')) by (rewrite Hrun, H; reflexivity).
      rewrite (@bind_ok _ _ _ _ _ _ _ Hr). reflexivity. }
    now rewrite (@bind_ok _ _ _ _ _ _ _ Hteam).
Qed.

(* --------------------------------------------------------------------- *)
(** *** The player stats aggregator *)

Lemma stat_tags_tagged d pid name team type_ scope pos :
  tagged (dict_update d (stat_tags pid name team (VStr type_) scope pos))
         scope type_.
Proof.
  unfold tagged, dict_update, stat_tags. cbn [fold_left fst snd].
  rewrite !dict_lookup_set. cbn. now split.
Qed.

Lemma season_type_of_hashable code :
  hashable code = true -> season_type_of code = Ok (VStr (type_name code)).
Proof.
  intros H. unfold season_type_of, int_table_get, type_name. rewrite H.
  cbn [int_table_lookup].
  destruct (equals_int code 2); [reflexivity|].
  now destruct (equals_int code 3).
Qed.

Lemma season_row_run pid name pos season :
  hashable (game_type_of season) = true ->
  season_row pid name pos (VDict season) =
  Ok (dict_update season
        (stat_tags pid name (read_or season "teamName" VNone)
                   (VStr (type_name (game_type_of season))) "season" pos)).
Proof.
  intros H. unfold season_row. rewrite !py_get_dict. cbn [rbind].
  fold (game_type_of season). rewrite (season_type_of_hashable _ H).
  reflexivity.
Qed.

(** C8 (amended): the competition type of a season entry is read off its
    game-type code.  For every code that can be a dict key (a number, a
    boolean, a string, null, or no code at all) the mapping is: 2 gives
    "regular", 3 gives "playoffs", anything else gives "other", and the
    row carries that value under "type".  A code that is a JSON array or
    object cannot be hashed: the lookup raises [TypeError]. *)
Theorem season_type_from_game_type
        (player_id : value) (full_name : string) (position : value)
        (season : dict) :
  (hashable (game_type_of season) = true ->
   exists row,
     season_row player_id full_name position (VDict season) = Ok row /\
     tagged row "season" (type_name (game_type_of season)))
  /\ (game_type_of season = VInt 2 ->
      type_name (game_type_of season) = "regular")
  /\ (game_type_of season = VInt 3 ->
      type_name (game_type_of season) = "playoffs")
  /\ (dict_lookup season "gameTypeId" = None ->
      type_name (game_type_of season) = "other")
  /\ (forall n, game_type_of season = VInt n -> n <> 2 -> n <> 3 ->
      type_name (game_type_of season) = "other")
  /\ (forall s, game_type_of season = VStr s ->
      type_name (game_type_of season) = "other")
  /\ (forall b, game_type_of season = VBool b ->
      type_name (game_type_of season) = "other")
  /\ (game_type_of season = VNone ->
      type_name (game_type_of season) = "other")
  /\ (hashable (game_type_of season) = false ->
      season_row player_id full_name position (VDict season)
      = Raise TypeError).
Proof.
  split; [|split; [|split; [|split; [|split; [|split; [|split; [|split]]]]]]].
  - intros H. rewrite (season_row_run _ _ _ _ H).
    eexists. split; [reflexivity|]. apply stat_tags_tagged.
  - now intros ->.
  - now intros ->.
  - intros H. unfold game_type_of, read_or. now rewrite H.
  - intros n -> H2 H3. unfold type_name, equals_int. cbn [as_number].
    destruct (Z.eqb_spec n 2); [contradiction|].
    now destruct (Z.eqb_spec n 3).
  - now intros s ->.
  - now intros [|] ->.
  - now intros ->.
  - intros H. unfold season_row. rewrite py_get_dict. cbn [rbind].
    fold (game_type_of season).
    unfold season_type_of, int_table_get. now rewrite H.
Qed.

Lemma rmap_inv {A B} (f : A -> result B) xs : forall ys,
  rmap f xs = Ok ys -> Forall2 (fun x y => f x = Ok y) xs ys.
Proof.
  induction xs as [|x xs IH]; simpl; intros ys H.
  - inversion H. constructor.
  - apply rbind_inv in H. destruct H as (y & Hy & H).
    apply rbind_inv in H. destruct H as (ys' & Hys & H).
    inversion H; subst. constructor; auto.
Qed.

Lemma py_update_inv obj other row :
  py_update obj other = Ok row ->
  exists d, obj = VDict d /\ row = dict_update d other.
Proof.
  destruct obj; try discriminate. intros H. inversion H. now eexists.
Qed.

Lemma season_row_tagged pid name pos season row :
  season_row pid name pos season = Ok row ->
  exists t, tagged row "season" t /\ In t ["regular"; "playoffs"; "other"].
Proof.
  unfold season_row. intros H.
  apply rbind_inv in H. destruct H as (gt & _ & H).
  apply rbind_inv in H. destruct H as (ty & Hty & H).
  apply rbind_inv in H. destruct H as (team & _ & H).
  apply py_update_inv in H. destruct H as (d & _ & ->).
  unfold season_type_of, int_table_get in Hty.
  destruct (hashable gt); [|discriminate].
  cbn [int_table_lookup] in Hty.
  destruct (equals_int gt 2).
  { inversion Hty. eexists. split; [apply stat_tags_tagged|]. simpl; auto. }
  destruct (equals_int gt 3).
  { inversion Hty. eexists. split; [apply stat_tags_tagged|]. simpl; auto. }
  inversion Hty. eexists. split; [apply stat_tags_tagged|]. simpl; auto.
Qed.

Lemma career_row_tagged data pid name team pos key label row :
  career_row data pid name team pos (key, label) = Ok (Some row) ->
  tagged row "career" label.
Proof.
  unfold career_row. cbn [fst snd]. intros H.
  apply rbind_inv in H. destruct H as (totals & _ & H).
  apply rbind_inv in H. destruct H as (career & _ & H).
  destruct (truthy career); [|discriminate].
  apply rbind_inv in H. destruct H as (row' & Hu & H).
  inversion H; subst row'.
  apply py_update_inv in Hu. destruct Hu as (d & _ & ->).
  apply stat_tags_tagged.
Qed.

(** A career key whose value is absent, null or empty adds no row. *)
Lemma career_row_skipped d ct pid name team pos key label :
  read_or d "careerTotals" (VDict []) = VDict ct ->
  truthy (read_or ct key VNone) = false ->
  career_row (VDict d) pid name team pos (key, label) = Ok None.
Proof.
  intros Hct Hf. unfold career_row. cbn [fst snd].
  rewrite py_get_dict, Hct. cbn [rbind]. rewrite py_get_dict. cbn [rbind].
  now rewrite Hf.
Qed.

(** A career key whose value is a non-empty object adds one row. *)
Lemma career_row_present d ct c pid name team pos key label :
  dict_lookup d "careerTotals" = Some (VDict ct) ->
  dict_lookup ct key = Some (VDict c) ->
  c <> [] ->
  career_row (VDict d) pid name team pos (key, label) =
  Ok (Some (dict_update c (stat_tags pid name team (VStr label) "career" pos))).
Proof.
  intros Hct Hc Hne. unfold career_row. cbn [fst snd].
  rewrite py_get_dict. unfold read_or at 1. rewrite Hct. cbn [rbind].
  rewrite py_get_dict. unfold read_or at 1. rewrite Hc. cbn [rbind].
  destruct c; [contradiction|]. reflexivity.
Qed.

(** C4 (amended): for a profile with two season entries, of game types 2
    and 3 in that order, and with both career keys bound to non-empty
    objects, [fetch_player_stats] returns exactly four rows:
    season/regular, season/playoffs, career/regular, career/playoffs.
    In general the rows are the season rows in source order, then the
    regular-season career row, then the playoffs career row; a career
    key whose value is absent, null or empty is skipped. *)
Theorem stat_rows_in_order
        (player_id : value) (full_name : string) (team_name position : value)
        (st st' : State) (d : dict) :
  fetch_json (player_url player_id) st = (Ok (VDict d), st') ->
  d <> [] ->
  (forall s2 s3 ct r p,
     dict_lookup d "seasonTotals" = Some (VList [VDict s2; VDict s3]) ->
     dict_lookup s2 "gameTypeId" = Some (VInt 2) ->
     dict_lookup s3 "gameTypeId" = Some (VInt 3) ->
     dict_lookup d "careerTotals" = Some (VDict ct) ->
     dict_lookup ct "regularSeason" = Some (VDict r) -> r <> [] ->
     dict_lookup ct "playoffs" = Some (VDict p) -> p <> [] ->
     exists r1 r2 r3 r4,
       fetch_player_stats player_id full_name team_name position st
       = (Ok [r1; r2; r3; r4], st') /\
       tagged r1 "season" "regular" /\ tagged r2 "season" "playoffs" /\
       tagged r3 "career" "regular" /\ tagged r4 "career" "playoffs")
  /\
  (forall rows st2,
     fetch_player_stats player_id full_name team_name position st
     = (Ok rows, st2) ->
     exists seasons season_rows c1 c2,
       py_iter (read_or d "seasonTotals" (VList [])) = Ok seasons /\
       Forall2 (fun season row =>
                  season_row player_id full_name position season = Ok row /\
                  exists t, tagged row "season" t)
               seasons season_rows /\
       career_row (VDict d) player_id full_name team_name position
                  ("regularSeason", "regular") = Ok c1 /\
       career_row (VDict d) player_id full_name team_name position
                  ("playoffs", "playoffs") = Ok c2 /\
       rows = (season_rows ++ somes [c1; c2])%list /\
       (forall row, c1 = Some row -> tagged row "career" "regular") /\
       (forall row, c2 = Some row -> tagged row "career" "playoffs"))
  /\
  (forall ct key label,
     read_or d "careerTotals" (VDict []) = VDict ct ->
     truthy (read_or ct key VNone) = false ->
     career_row (VDict d) player_id full_name team_name position (key, label)
     = Ok None).
Proof.
  intros F Hd.
  assert (Hrun : fetch_player_stats player_id full_name team_name position st
                 = (player_stat_rows (VDict d) player_id full_name team_name
                                     position, st')).
  { unfold fetch_player_stats. rewrite (@bind_ok _ _ _ _ _ _ _ F).
    destruct d; [contradiction|]. reflexivity. }
  split; [|split].
  - intros s2 s3 ct r p Hs H2 H3 Hct Hr Hrne Hp Hpne.
    rewrite Hrun. unfold player_stat_rows.
    rewrite py_get_dict. unfold read_or at 1. rewrite Hs.
    cbn [rbind py_iter rmap].
    rewrite !season_row_run
      by (unfold game_type_of, read_or; rewrite ?H2, ?H3; reflexivity).
    cbn [rbind career_keys rmap].
    rewrite (career_row_present _ _ _ _ _ _ _ Hct Hr Hrne).
    rewrite (career_row_present _ _ _ _ _ _ _ Hct Hp Hpne).
    cbn [rbind somes flat_map app].
    eexists _, _, _, _. split; [reflexivity|].
    unfold game_type_of, read_or. rewrite H2, H3.
    repeat split; apply stat_tags_tagged.
  - intros rows st2 H. rewrite Hrun in H. inversion H; subst st2.
    match goal with Hr : player_stat_rows _ _ _ _ _ = Ok rows |- _ =>
      rename Hr into Hrows end.
    unfold player_stat_rows in Hrows.
    rewrite py_get_dict in Hrows. cbn [rbind] in Hrows.
    apply rbind_inv in Hrows. destruct Hrows as (seasons & Hi & Hrows).
    apply rbind_inv in Hrows. destruct Hrows as (srows & Hsr & Hrows).
    apply rbind_inv in Hrows. destruct Hrows as (crows & Hcr & Hrows).
    inversion Hrows; subst rows.
    apply rmap_inv in Hsr, Hcr. unfold career_keys in Hcr.
    inversion Hcr as [|k1 c1 ks cs Hc1 Hcr']; subst.
    inversion Hcr' as [|k2 c2 ks' cs' Hc2 Hcr'']; subst.
    inversion Hcr''; subst.
    exists seasons, srows, c1, c2.
    split; [exact Hi|]. split.
    { clear - Hsr. induction Hsr as [|x y xs ys Hx _ IH]; constructor; auto.
      split; [exact Hx|].
      destruct (season_row_tagged _ _ _ _ Hx) as (t & Ht & _). now exists t. }
    split; [exact Hc1|]. split; [exact Hc2|]. split; [reflexivity|].
    split; intros row ->; eapply career_row_tagged; eauto.
  - intros ct key label. apply career_row_skipped.
Qed.

(* --------------------------------------------------------------------- *)
(** *** The fields of a team row *)

(** In a dict display the first value that fails gives the error. *)
Lemma dict_display_first_raise entry before k e after x :
  Forall (evaluates entry) before ->
  eval_field entry e = Raise x ->
  dict_display entry (before ++ (k, e) :: after)%list = Raise x.
Proof.
  unfold dict_display. intros Hb He.
  induction Hb as [|[k0 e0] before' [v Hv] _ IH]; simpl.
  - now rewrite He.
  - simpl in Hv. rewrite Hv. simpl. now rewrite IH.
Qed.

(** Among reads of which one fails there is a first one that fails. *)
Lemma first_failing_read entry reads k e x :
  In (k, e) reads -> eval_field entry e = Raise x ->
  exists before k' e' after x',
    reads = (before ++ (k', e') :: after)%list /\
    Forall (evaluates entry) before /\
    eval_field entry e' = Raise x'.
Proof.
  induction reads as [|[k0 e0] reads IH]; simpl; intros Hin He;
    [contradiction|].
  destruct (eval_field entry e0) as [v0|x0] eqn:E0.
  - destruct Hin as [Heq|Hin]; [inversion Heq; subst; congruence|].
    destruct (IH Hin He) as (before & k' & e' & after & x' & -> & Hb & He').
    exists ((k0, e0) :: before), k', e', after, x'.
    split; [reflexivity|]. split; [|exact He'].
    constructor; [now exists v0 | exact Hb].
  - exists [], k0, e0, reads, x0. repeat split; [constructor | exact E0].
Qed.

Lemma eval_Sub1_error d k x :
  eval_field (VDict d) (Sub1 k) = Raise x -> x = KeyError (VStr k).
Proof.
  simpl. destruct (dict_lookup d k); intros H; now inversion H.
Qed.

Lemma eval_Sub2_error d k1 k2 x :
  eval_field (VDict d) (Sub2 k1 k2) = Raise x ->
  x = TypeError \/ x = KeyError (VStr k1) \/ x = KeyError (VStr k2).
Proof.
  simpl. destruct (dict_lookup d k1) as [inner|]; cbn [rbind];
    [|intros H; inversion H; auto].
  destruct inner as [| | | | |xs|kvs]; simpl;
    try (intros H; inversion H; now auto).
  destruct (dict_lookup kvs k2); intros H; inversion H; auto.
Qed.

(** A read of [identity_reads] fails when its key is absent, and
    whatever it raises is an [identity_error]. *)
Lemma identity_read_absent d k e :
  In (k, e) identity_reads -> dict_lookup d k = None ->
  eval_field (VDict d) e = Raise (KeyError (VStr k)).
Proof.
  unfold identity_reads. simpl.
  intros [H|[H|[H|[H|[H|[]]]]]] Hk; inversion H; subst;
    first [now apply eval_Sub2_absent | now apply eval_Sub1_absent].
Qed.

Lemma identity_read_error d k e x :
  In (k, e) identity_reads -> eval_field (VDict d) e = Raise x ->
  identity_error x.
Proof.
  unfold identity_reads, identity_error, identity_keys.
  intros Hin He. simpl in Hin.
  destruct Hin as [H|[H|[H|[H|[H|[]]]]]]; inversion H; subst; clear H.
  - destruct (@eval_Sub2_error _ _ _ _ He) as [->|[->| ->]];
      [now left | right; eexists; split; [|reflexivity]; simpl; auto 10 ..].
  - destruct (@eval_Sub2_error _ _ _ _ He) as [->|[->| ->]];
      [now left | right; eexists; split; [|reflexivity]; simpl; auto 10 ..].
  - rewrite (@eval_Sub1_error _ _ _ He).
    right; eexists; split; [|reflexivity]; simpl; auto 10.
  - rewrite (@eval_Sub1_error _ _ _ He).
    right; eexists; split; [|reflexivity]; simpl; auto 10.
  - rewrite (@eval_Sub1_error _ _ _ He).
    right; eexists; split; [|reflexivity]; simpl; auto 10.
Qed.

(** The row raises what the first failing identity read raises: the
    abbreviation is read first (line 44), the other four are the second
    to fifth values of the display (lines 47-50). *)
Lemma first_identity_failure d before k e after x :
  identity_reads = (before ++ (k, e) :: after)%list ->
  Forall (evaluates (VDict d)) before ->
  eval_field (VDict d) e = Raise x ->
  standings_row (VDict d) = Raise x.
Proof using.
  intros Hsplit Hb He. unfold standings_row.
  destruct before as [|r1 before].
  { inversion Hsplit; subst. now rewrite He. }
  inversion Hsplit as [[Hr1 Hsplit']]; subst r1.
  inversion Hb as [|? ? [abbr Ha] Hb']; subst. cbn [snd] in Ha.
  rewrite Ha. cbn [rbind].
  assert (Hrow : dict_display (VDict d) (team_data_fields abbr) = Raise x).
  { destruct before as [|r2 before].
    { inversion Hsplit'; subst.
      apply (@dict_display_first_raise (VDict d)
               [("team_abbr", Local abbr)]
               "team_name" (Sub2 "teamName" "default")
               (skipn 2 (team_data_fields abbr)) x); [|exact He].
      apply Forall_cons; [now exists abbr | apply Forall_nil]. }
    inversion Hsplit' as [[Hr2 Hsplit2]]; subst r2.
    inversion Hb' as [|? ? Hn Hb2]; subst.
    destruct before as [|r3 before].
    { inversion Hsplit2; subst.
      apply (@dict_display_first_raise (VDict d)
               [("team_abbr", Local abbr);
                ("team_name", Sub2 "teamName" "default")]
               "conference" (Sub1 "conferenceName")
               (skipn 3 (team_data_fields abbr)) x); [|exact He].
      apply Forall_cons; [now exists abbr|].
      apply Forall_cons; [exact Hn | apply Forall_nil]. }
    inversion Hsplit2 as [[Hr3 Hsplit3]]; subst r3.
    inversion Hb2 as [|? ? Hc Hb3]; subst.
    destruct before as [|r4 before].
    { inversion Hsplit3; subst.
      apply (@dict_display_first_raise (VDict d)
               [("team_abbr", Local abbr);
                ("team_name", Sub2 "teamName" "default");
                ("conference", Sub1 "conferenceName")]
               "division" (Sub1 "divisionName")
               (skipn 4 (team_data_fields abbr)) x); [|exact He].
      apply Forall_cons; [now exists abbr|].
      apply Forall_cons; [exact Hn|].
      apply Forall_cons; [exact Hc | apply Forall_nil]. }
    inversion Hsplit3 as [[Hr4 Hsplit4]]; subst r4.
    inversion Hb3 as [|? ? Hdv Hb4]; subst.
    destruct before as [|r5 before].
    { inversion Hsplit4; subst.
      apply (@dict_display_first_raise (VDict d)
               [("team_abbr", Local abbr);
                ("team_name", Sub2 "teamName" "default");
                ("conference", Sub1 "conferenceName");
                ("division", Sub1 "divisionName")]
               "logo" (Sub1 "teamLogo")
               (skipn 5 (team_data_fields abbr)) x); [|exact He].
      apply Forall_cons; [now exists abbr|].
      apply Forall_cons; [exact Hn|].
      apply Forall_cons; [exact Hc|].
      apply Forall_cons; [exact Hdv | apply Forall_nil]. }
    inversion Hsplit4 as [[Hr5 Hsplit5]].
    destruct before; discriminate Hsplit5. }
  now rewrite Hrow.
Qed.

(** C2 (amended): on a standings entry that is a JSON object, every
    record counter is read with [get]: the read never raises, and an
    absent key gives [None] (the empty string for [clinch] and
    [streak_type]) in the team row.  The five identity fields are read
    by subscripting instead, in the order of [identity_reads]: the row
    is built when they are present (and the regulation-wins difference
    evaluates).  When an identity read fails, the row raises what the
    first failing one raises; so an absent identity key raises
    [KeyError] naming that key when the identity reads before it
    return, and in every case an absent identity key makes the row
    raise [TypeError] or a [KeyError] on an identity key or on
    [default]. *)
Theorem record_fields_null_safe (d : dict) :
  (forall k default,
     eval_field (VDict d) (Get k) = Ok (read_or d k VNone) /\
     eval_field (VDict d) (GetOr k default) = Ok (read_or d k default))
  /\
  (forall abbr name conf div logo diff,
     eval_field (VDict d) (Sub2 "teamAbbrev" "default") = Ok abbr ->
     eval_field (VDict d) (Sub2 "teamName" "default") = Ok name ->
     dict_lookup d "conferenceName" = Some conf ->
     dict_lookup d "divisionName" = Some div ->
     dict_lookup d "teamLogo" = Some logo ->
     eval_field (VDict d)
       (GetMinusGet "regulationPlusOtWins" "regulationWins") = Ok diff ->
     exists row,
       standings_row (VDict d) = Ok (abbr, row) /\
       map fst row = map fst (team_data_fields abbr) /\
       (forall out k,
          In (out, Get k) (team_data_fields abbr) ->
          dict_lookup row out = Some (read_or d k VNone)) /\
       (forall out k default,
          In (out, GetOr k default) (team_data_fields abbr) ->
          dict_lookup row out = Some (read_or d k default)) /\
       dict_lookup row "team_abbr" = Some abbr /\
       dict_lookup row "team_name" = Some name /\
       dict_lookup row "conference" = Some conf /\
       dict_lookup row "division" = Some div /\
       dict_lookup row "logo" = Some logo)
  /\
  (forall before k e after,
     identity_reads = (before ++ (k, e) :: after)%list ->
     Forall (evaluates (VDict d)) before ->
     (forall x, eval_field (VDict d) e = Raise x ->
                standings_row (VDict d) = Raise x) /\
     (dict_lookup d k = None ->
      standings_row (VDict d) = Raise (KeyError (VStr k))))
  /\
  (forall k,
     In k identity_keys -> dict_lookup d k = None ->
     exists x, standings_row (VDict d) = Raise x /\ identity_error x).
Proof using.
  split; [|split; [|split]].
  - intros k default. split; [apply eval_Get | apply eval_GetOr].
  - intros abbr name conf div logo diff Ha Hn Hc Hdv Hl Hdiff.
    destruct (standings_row_total _ Ha Hn Hc Hdv Hl Hdiff) as (row & Hrow).
    exists row. split; [exact Hrow|].
    destruct (standings_row_inv _ Hrow) as [_ HF].
    pose proof (display_lookup HF (team_data_keys_distinct abbr)) as Hlook.
    split; [now apply display_keys in HF|].
    split.
    { intros out k Hin. destruct (Hlook _ _ Hin) as (v & Hv & ->).
      rewrite eval_Get in Hv. congruence. }
    split.
    { intros out k default Hin. destruct (Hlook _ _ Hin) as (v & Hv & ->).
      rewrite eval_GetOr in Hv. congruence. }
    assert (Hfield : forall out e v,
              In (out, e) (team_data_fields abbr) ->
              eval_field (VDict d) e = Ok v -> dict_lookup row out = Some v).
    { intros out e v Hin He. destruct (Hlook _ _ Hin) as (v' & Hv' & ->).
      congruence. }
    repeat split.
    + apply (Hfield _ (Local abbr)); [simpl; auto 10 | reflexivity].
    + apply (Hfield _ (Sub2 "teamName" "default")); [simpl; auto 10 | exact Hn].
    + apply (Hfield _ (Sub1 "conferenceName")); [simpl; auto 10|].
      now apply eval_Sub1.
    + apply (Hfield _ (Sub1 "divisionName")); [simpl; auto 10|].
      now apply eval_Sub1.
    + apply (Hfield _ (Sub1 "teamLogo")); [simpl; auto 10|].
      now apply eval_Sub1.
  - intros before k e after Hsplit Hb. split.
    + intros x He. exact (@first_identity_failure _ _ _ _ _ _ Hsplit Hb He).
    + intros Hk. apply (@first_identity_failure _ _ _ _ _ _ Hsplit Hb).
      apply identity_read_absent; [|exact Hk].
      rewrite Hsplit. apply in_or_app. right. now left.
  - intros k Hin Hk.
    assert (Hread : exists e, In (k, e) identity_reads).
    { unfold identity_keys in Hin. unfold identity_reads. simpl in Hin |- *.
      destruct Hin as [<-|[<-|[<-|[<-|[<-|[]]]]]]; eexists; auto 10. }
    destruct Hread as (e & Hin').
    pose proof (@identity_read_absent _ _ _ Hin' Hk) as He.
    destruct (@first_failing_read _ _ _ _ _ Hin' He)
      as (before & k' & e' & after & x' & Hsplit & Hb & He').
    exists x'. split.
    + exact (@first_identity_failure _ _ _ _ _ _ Hsplit Hb He').
    + apply (@identity_read_error d k' e' x'); [|exact He'].
      rewrite Hsplit. apply in_or_app. right. now left.
Qed.

(* --------------------------------------------------------------------- *)
(** *** Further properties of the team row *)

(** X1: on a standings entry from which a row is built and whose
    [regulationPlusOtWins] and [regulationWins] are the integers [a] and
    [b], the column [reg_ot_wins] holds [a - b]. *)
Theorem reg_ot_wins_is_difference
        (d : dict) (abbr : value) (row : dict) (a b : Z) :
  standings_row (VDict d) = Ok (abbr, row) ->
  dict_lookup d "regulationPlusOtWins" = Some (VInt a) ->
  dict_lookup d "regulationWins" = Some (VInt b) ->
  dict_lookup row "reg_ot_wins" = Some (VInt (a - b)).
Proof using.
  intros Hrow Ha Hb.
  destruct (standings_row_inv _ Hrow) as [_ HF].
  destruct (display_lookup HF (team_data_keys_distinct abbr) "reg_ot_wins"
              (GetMinusGet "regulationPlusOtWins" "regulationWins"))
    as (v & Hv & ->).
  - cbn [team_data_fields In]. repeat first [ left; reflexivity | right ].
  - rewrite (reg_ot_wins_difference _ _ _ Ha Hb) in Hv. congruence.
Qed.

Lemma update_from_gets td r fields :
  all_gets fields = true ->
  distinct (map fst fields) = true ->
  exists td',
    update_from td (VDict r) fields = Ok td' /\
    (forall out k, In (out, Get k) fields ->
                   dict_lookup td' out = Some (read_or r k VNone)) /\
    (forall k, ~ In k (map fst fields) -> dict_lookup td' k = dict_lookup td k).
Proof using.
  intros Hg Hd.
  destruct (update_from_total td r _ Hg) as (td' & Hu).
  exists td'. split; [exact Hu|].
  split; [|now apply (update_from_inv _ _ _ Hu)].
  unfold update_from in Hu.
  apply rbind_inv in Hu. destruct Hu as (extra & He & Hu).
  inversion Hu; subst td'.
  apply dict_display_inv in He.
  intros out k Hin.
  destruct (display_lookup He Hd _ _ Hin) as (v & Hv & Hl).
  rewrite eval_Get in Hv. inversion Hv; subst v.
  apply dict_lookup_update_in.
  - now rewrite (display_keys He).
  - now apply dict_lookup_In.
Qed.

(** X2: each of the three supplementary merges leaves the team record
    as it is when the payload is falsy (a failed fetch gives [None]) or
    its [data] list is empty, and, when the [data] list starts with an
    object, adds that merge's columns, each read with [get] from that
    first row, keeping every other column.  The goals-by-period and
    faceoff merges also leave the record as it is when the payload
    object has no [data] key. *)
Theorem supplementary_merges (td : dict) (payload : value) :
  (truthy payload = false ->
   merge_powerplay td payload = Ok td /\
   merge_goalsbyperiod td payload = Ok td /\
   merge_faceoff td payload = Ok td)
  /\
  (forall d,
     payload = VDict d -> dict_lookup d "data" = Some (VList []) ->
     merge_powerplay td payload = Ok td /\
     merge_goalsbyperiod td payload = Ok td /\
     merge_faceoff td payload = Ok td)
  /\
  (forall d r rest,
     payload = VDict d ->
     dict_lookup d "data" = Some (VList (VDict r :: rest)) ->
     merges_row (merge_powerplay td payload) td r powerplay_fields /\
     merges_row (merge_goalsbyperiod td payload) td r goalsbyperiod_fields /\
     merges_row (merge_faceoff td payload) td r faceoff_fields)
  /\
  (forall d,
     payload = VDict d -> dict_lookup d "data" = None ->
     merge_goalsbyperiod td payload = Ok td /\
     merge_faceoff td payload = Ok td).
Proof using.
  unfold merge_goalsbyperiod, merge_faceoff, merge_powerplay, merge_with_get.
  split; [|split; [|split]].
  - intros ->. repeat split.
  - intros d -> Hd. rewrite !py_get_dict. unfold read_or.
    cbn [py_getitem]. rewrite Hd. cbn [rbind truthy].
    destruct (match d with [] => false | _ => true end); repeat split.
  - intros d r rest -> Hd. rewrite !py_get_dict. unfold read_or.
    cbn [py_getitem]. rewrite Hd. cbn [rbind truthy].
    assert (Hne : match d with [] => false | _ :: _ => true end = true)
      by (destruct d; [discriminate | reflexivity]).
    rewrite Hne. cbn [py_getitem as_number seq_index].
    repeat split; now apply update_from_gets.
  - intros d -> Hd. rewrite !py_get_dict. unfold read_or. rewrite Hd.
    cbn [rbind truthy].
    destruct (match d with [] => false | _ => true end); repeat split.
Qed.

(* --------------------------------------------------------------------- *)
(** *** What a stat row keeps and what it overrides *)

Lemma keys_dict_set d k v : map fst (dict_set d k v) = add_column (map fst d) k.
Proof.
  unfold add_column.
  induction d as [|[k0 v0] d IH]; simpl; [reflexivity|].
  destruct (String.eqb k k0) eqn:E; simpl; [reflexivity|].
  rewrite IH. now destruct (existsb (String.eqb k) (map fst d)).
Qed.

Lemma keys_dict_update other : forall d,
  map fst (dict_update d other) = fold_left add_column (map fst other) (map fst d).
Proof.
  unfold dict_update.
  induction other as [|[k v] other IH]; intros d; simpl; [reflexivity|].
  now rewrite IH, keys_dict_set.
Qed.

(** The row a dict becomes when the six tags are written over it. *)
Lemma tagged_row d pid name team type_ scope pos :
  let row := dict_update d (stat_tags pid name team type_ scope pos) in
  map fst row = fold_left add_column tag_keys (map fst d) /\
  (forall k, ~ In k tag_keys -> dict_lookup row k = dict_lookup d k) /\
  dict_lookup row "player_id" = Some pid /\
  dict_lookup row "player" = Some (VStr name) /\
  dict_lookup row "team" = Some team /\
  dict_lookup row "type" = Some type_ /\
  dict_lookup row "season_scope" = Some (VStr scope) /\
  dict_lookup row "positionCode" = Some pos.
Proof using.
  intros row. subst row.
  split; [apply keys_dict_update|].
  split; [intros k Hk; now apply dict_lookup_update_other|].
  repeat split; apply dict_lookup_update_in; try reflexivity;
    cbn [stat_tags In]; repeat first [ left; reflexivity | right ].
Qed.

(** X3: a season row is the season entry itself with six tags written
    over it: every other key of the entry is passed through with its
    value, the entry's columns keep their order and the missing tag
    columns follow in display order; [team] is the entry's own
    [teamName] ([None] when absent), [type] comes from the game-type
    code, and [player_id], [player], [positionCode] are the arguments,
    also when the entry already had such a key. *)
Theorem season_row_passes_through
        (player_id : value) (full_name : string) (position : value)
        (season : value) (row : dict) :
  season_row player_id full_name position season = Ok row ->
  exists d,
    season = VDict d /\
    map fst row = fold_left add_column tag_keys (map fst d) /\
    (forall k, ~ In k tag_keys -> dict_lookup row k = dict_lookup d k) /\
    dict_lookup row "player_id" = Some player_id /\
    dict_lookup row "player" = Some (VStr full_name) /\
    dict_lookup row "team" = Some (read_or d "teamName" VNone) /\
    dict_lookup row "type" = Some (VStr (type_name (game_type_of d))) /\
    dict_lookup row "season_scope" = Some (VStr "season") /\
    dict_lookup row "positionCode" = Some position.
Proof using.
  intros H. destruct season as [| | | | |xs|d]; try discriminate.
  exists d. split; [reflexivity|].
  destruct (hashable (game_type_of d)) eqn:Hh.
  - rewrite (season_row_run _ _ _ _ Hh) in H. inversion H; subst row.
    apply tagged_row.
  - unfold season_row in H. rewrite py_get_dict in H. cbn [rbind] in H.
    fold (game_type_of d) in H.
    unfold season_type_of, int_table_get in H. rewrite Hh in H.
    discriminate.
Qed.

(** X4: a career row is the career-totals object with the six tags
    written over it: its other keys are passed through, [team] is the
    player's team given by the caller (not a per-entry team), [type] is
    the label of the career key and [season_scope] is "career".  A row
    is made only from a non-empty object. *)
Theorem career_row_passes_through
        (data player_id : value) (full_name : string)
        (team_name position : value) (key label : string) (row : dict) :
  career_row data player_id full_name team_name position (key, label)
  = Ok (Some row) ->
  exists d totals c,
    data = VDict d /\
    read_or d "careerTotals" (VDict []) = VDict totals /\
    dict_lookup totals key = Some (VDict c) /\ c <> [] /\
    map fst row = fold_left add_column tag_keys (map fst c) /\
    (forall k, ~ In k tag_keys -> dict_lookup row k = dict_lookup c k) /\
    dict_lookup row "player_id" = Some player_id /\
    dict_lookup row "player" = Some (VStr full_name) /\
    dict_lookup row "team" = Some team_name /\
    dict_lookup row "type" = Some (VStr label) /\
    dict_lookup row "season_scope" = Some (VStr "career") /\
    dict_lookup row "positionCode" = Some position.
Proof using.
  unfold career_row. cbn [fst snd]. intros H.
  destruct data as [| | | | |xs|d]; try discriminate.
  rewrite py_get_dict in H. cbn [rbind] in H.
  destruct (read_or d "careerTotals" (VDict [])) as [| | | | |xs|totals] eqn:Ht;
    try discriminate.
  rewrite py_get_dict in H. cbn [rbind] in H.
  unfold read_or in H.
  destruct (dict_lookup totals key) as [career|] eqn:Hc; [|discriminate].
  destruct (truthy career) eqn:Htr; [|discriminate].
  destruct career as [| | | | |xs|c]; try discriminate.
  cbn [py_update rbind] in H. inversion H; subst row.
  exists d, totals, c.
  split; [reflexivity|]. split; [exact Ht|]. split; [exact Hc|].
  split; [intros ->; discriminate Htr|].
  apply tagged_row.
Qed.

(* --------------------------------------------------------------------- *)
(** *** Keys that join the three tables *)

Lemma season_row_inv pid name pos season row :
  season_row pid name pos season = Ok row ->
  exists d team type_,
    season = VDict d /\
    row = dict_update d (stat_tags pid name team type_ "season" pos).
Proof.
  unfold season_row. intros H.
  apply rbind_inv in H. destruct H as (gt & _ & H).
  apply rbind_inv in H. destruct H as (ty & _ & H).
  apply rbind_inv in H. destruct H as (team & _ & H).
  apply py_update_inv in H. destruct H as (d & -> & ->). now eexists _, _, _.
Qed.

Lemma career_row_inv data pid name team pos key_label row :
  career_row data pid name team pos key_label = Ok (Some row) ->
  exists c, row = dict_update c (stat_tags pid name team
                                   (VStr (snd key_label)) "career" pos).
Proof.
  unfold career_row. intros H.
  apply rbind_inv in H. destruct H as (totals & _ & H).
  apply rbind_inv in H. destruct H as (career & _ & H).
  destruct (truthy career); [|discriminate].
  apply rbind_inv in H. destruct H as (row' & Hu & H).
  inversion H; subst row'.
  apply py_update_inv in Hu. destruct Hu as (c & _ & ->). now eexists.
Qed.

Lemma tagged_row_carries d pid name team type_ scope pos :
  carries_player pid name pos
    (dict_update d (stat_tags pid name team type_ scope pos)).
Proof.
  destruct (tagged_row d pid name team type_ scope pos)
    as (_ & _ & H1 & H2 & _ & _ & _ & H3).
  now repeat split.
Qed.

Lemma player_stat_rows_inv data pid name team pos rows :
  player_stat_rows data pid name team pos = Ok rows ->
  exists d seasons season_rows career_rows,
    data = VDict d /\
    py_iter (read_or d "seasonTotals" (VList [])) = Ok seasons /\
    Forall2 (fun season row => season_row pid name pos season = Ok row)
            seasons season_rows /\
    Forall2 (fun kl c => career_row data pid name team pos kl = Ok c)
            career_keys career_rows /\
    rows = (season_rows ++ somes career_rows)%list.
Proof.
  unfold player_stat_rows. intros H.
  destruct data as [| | | | |xs|d]; try discriminate.
  rewrite py_get_dict in H. cbn [rbind] in H.
  apply rbind_inv in H. destruct H as (seasons & Hi & H).
  apply rbind_inv in H. destruct H as (srows & Hs & H).
  apply rbind_inv in H. destruct H as (crows & Hc & H).
  inversion H; subst rows.
  exists d, seasons, srows, crows.
  repeat split; auto using rmap_inv.
Qed.

Lemma somes_length {A} (xs : list (option A)) :
  (List.length (somes xs) <= List.length xs)%nat.
Proof.
  induction xs as [|[a|] xs IH]; simpl; lia.
Qed.

Lemma somes_In {A} (xs : list (option A)) a : In a (somes xs) -> In (Some a) xs.
Proof.
  induction xs as [|[b|] xs IH]; simpl; [contradiction| |].
  - intros [-> | H]; [now left | right; now apply IH].
  - intros H. right. now apply IH.
Qed.

Lemma Forall2_In_right {A B} (R : A -> B -> Prop) xs ys y :
  Forall2 R xs ys -> In y ys -> exists x, In x xs /\ R x y.
Proof.
  induction 1 as [|x0 y0 xs ys Hxy _ IH]; simpl; [contradiction|].
  intros [<- | Hin].
  - exists x0. split; [now left | exact Hxy].
  - destruct (IH Hin) as (x & Hx & HR). exists x. split; [now right | exact HR].
Qed.

Lemma player_stat_rows_carry data pid name team pos rows :
  player_stat_rows data pid name team pos = Ok rows ->
  Forall (carries_player pid name pos) rows.
Proof.
  intros H. apply player_stat_rows_inv in H.
  destruct H as (d & seasons & srows & crows & _ & _ & Hs & Hc & ->).
  apply Forall_app. split.
  - clear - Hs. induction Hs as [|x y xs ys Hx _ IH]; constructor; auto.
    apply season_row_inv in Hx. destruct Hx as (d & t & ty & _ & ->).
    apply tagged_row_carries.
  - apply Forall_forall. intros row Hin. apply somes_In in Hin.
    destruct (@Forall2_In_right _ _ _ _ _ _ Hc Hin) as (kl & _ & Hrow).
    apply career_row_inv in Hrow. destruct Hrow as (c & ->).
    apply tagged_row_carries.
Qed.

Lemma fetch_player_stats_run pid name team pos st data st1 :
  fetch_json (player_url pid) st = (Ok data, st1) ->
  fetch_player_stats pid name team pos st =
  (if negb (truthy data) then Ok []
   else player_stat_rows data pid name team pos, st1).
Proof.
  intros F. unfold fetch_player_stats. rewrite (@bind_ok _ _ _ _ _ _ _ F).
  now destruct (truthy data).
Qed.

(** X5: every row that [fetch_player_stats] returns carries the id, the
    name and the position it was called with.  A falsy payload gives no
    row; otherwise there is one row per season entry plus at most two
    career rows. *)
Theorem stat_rows_carry_player
        (player_id : value) (full_name : string) (team_name position : value)
        (st st' : State) (rows : list dict) :
  fetch_player_stats player_id full_name team_name position st
  = (Ok rows, st') ->
  Forall (carries_player player_id full_name position) rows /\
  exists data,
    fetch_json (player_url player_id) st = (Ok data, st') /\
    (truthy data = false -> rows = []) /\
    (truthy data = true ->
     exists d seasons,
       data = VDict d /\
       py_iter (read_or d "seasonTotals" (VList [])) = Ok seasons /\
       (List.length seasons <= List.length rows <= List.length seasons + 2)%nat).
Proof.
  intros H.
  destruct (fetch_json_total (player_url player_id) st) as (data & st1 & F).
  rewrite (@fetch_player_stats_run _ _ _ _ _ _ _ F) in H.
  destruct (truthy data) eqn:T; cbn [negb] in H; inversion H; subst.
  - split; [now apply player_stat_rows_carry with (data := data) (team := team_name)|].
    exists data. split; [exact F|]. split; [congruence|]. intros _.
    match goal with Hr : player_stat_rows _ _ _ _ _ = Ok _ |- _ =>
      apply player_stat_rows_inv in Hr;
      destruct Hr as (d & seasons & srows & crows & -> & Hi & Hs & Hc & ->)
    end.
    exists d, seasons. split; [reflexivity|]. split; [exact Hi|].
    rewrite length_app. apply Forall2_length in Hs, Hc.
    pose proof (somes_length crows). cbn [career_keys List.length] in Hc. lia.
  - split; [constructor|]. exists data. split; [exact F|].
    split; [reflexivity | congruence].
Qed.

Lemma py_getitem_str_inv obj k v :
  py_getitem obj (VStr k) = Ok v ->
  exists d, obj = VDict d /\ dict_lookup d k = Some v.
Proof.
  destruct obj as [| | | | |xs|d]; try discriminate.
  cbn [py_getitem]. destruct (dict_lookup d k) eqn:E; [|discriminate].
  intros H. inversion H; subst. now exists d.
Qed.

Lemma roster_player_inv team_name team_abbr acc player st acc' st' :
  roster_player team_name team_abbr acc player st = (Ok acc', st') ->
  roster_step team_name team_abbr acc player st acc' st'.
Proof.
  unfold roster_player. intros H. run_inv H. subst acc'.
  match goal with
  | Hg : py_getitem player (VStr "id") = Ok _ |- _ =>
      apply py_getitem_str_inv in Hg; destruct Hg as (d & -> & Hid)
  end.
  match goal with
  | Hg : py_getitem (VDict d) (VStr "positionCode") = Ok _ |- _ =>
      apply py_getitem_str_inv in Hg; destruct Hg as (d' & Hd & Hpos);
      injection Hd as <-
  end.
  repeat match goal with
  | Hg : py_get (VDict _) _ _ = Ok _ |- _ =>
      rewrite py_get_dict in Hg; injection Hg as <-
  end.
  match goal with
  | Hf : fetch_player_stats ?id _ _ _ ?s0 = (Ok _, _) |- _ =>
      destruct (fetch_json_total (player_url id) s0) as (data & st1 & F);
      pose proof Hf as Hrows;
      rewrite (@fetch_player_stats_run _ _ _ _ _ _ _ F) in Hrows
  end.
  unfold roster_step. eexists d, _, _, _, _, _.
  split; [reflexivity|]. split; [exact Hid|].
  split; [eassumption|]. split; [eassumption|]. split; [exact Hpos|].
  split; [reflexivity|]. split; [reflexivity|]. split; [eassumption|].
  destruct (truthy data); cbn [negb] in Hrows; inversion Hrows; subst.
  - eapply player_stat_rows_carry; eauto.
  - constructor.
Qed.

(** X6: when the loop body over a roster returns, it has appended
    exactly one roster row, with the seven columns in display order --
    the player's [id], the full name made of [firstName.default] and
    [lastName.default], [positionCode], [sweaterNumber] ("N/A" when
    absent), the team's name and abbreviation, [headshot] ([None] when
    absent) -- and the rows [fetch_player_stats] returned for that
    player, each carrying the player's id, name and position. *)
Theorem roster_row_shape
        (team_name team_abbr : value) (acc : tables) (player : value)
        (st : State) (acc' : tables) (st' : State) :
  roster_player team_name team_abbr acc player st = (Ok acc', st') ->
  roster_step team_name team_abbr acc player st acc' st' /\
  forall d id name position,
    map fst (roster_row_of team_name team_abbr d id name position)
    = roster_keys.
Proof.
  intros H. split; [now apply roster_player_inv | reflexivity].
Qed.

Lemma for_acc_invariant {A S} (f : S -> A -> M S) (I : S -> Prop) xs :
  (forall acc x st acc' st',
     In x xs -> I acc -> f acc x st = (Ok acc', st') -> I acc') ->
  forall acc st acc' st',
    I acc -> for_acc f xs acc st = (Ok acc', st') -> I acc'.
Proof.
  induction xs as [|x xs IH]; simpl; intros Hf acc st acc' st' HI H.
  - apply ret_inv in H. destruct H as [-> _]. exact HI.
  - apply bind_inv in H. destruct H as (a & s & H1 & H).
    eapply IH; [ | | exact H].
    + intros acc0 x0 st0 acc1 st1 Hin. apply Hf. now right.
    + eapply Hf; [now left | exact HI | exact H1].
Qed.

Lemma roster_player_joined teams team name abbr acc player st acc' st' :
  In team teams ->
  series_getitem team "team_abbr" = Ok abbr ->
  series_getitem team "team_name" = Ok name ->
  joined teams acc ->
  roster_player name abbr acc player st = (Ok acc', st') ->
  joined teams acc'.
Proof.
  intros Hin Ha Hn [Hr Hs] H. apply roster_player_inv in H.
  destruct H as (d & id & first & last & pos & stats & _ & _ & _ & _ & _
                 & Hfst & Hsnd & _ & Hcarry).
  unfold joined. rewrite Hfst, Hsnd. split.
  - apply Forall_app. split; [exact Hr|]. constructor; [|constructor].
    split; [reflexivity|]. exists team. split; [exact Hin|].
    exists abbr, name. now repeat split.
  - apply Forall_app. split.
    + eapply Forall_impl; [|exact Hs]. cbv beta.
      intros srow (rrow & Hrin & Hj). exists rrow.
      split; [apply in_or_app; now left | exact Hj].
    + eapply Forall_impl; [|exact Hcarry]. cbv beta.
      intros srow (Hid & Hname & _). eexists. split.
      * apply in_or_app. right. now left.
      * exists id, (VStr (py_str first ++ " " ++ py_str last)).
        now repeat split.
Qed.

Lemma roster_team_joined teams acc team st acc' st' :
  In team teams ->
  joined teams acc ->
  roster_team acc team st = (Ok acc', st') ->
  joined teams acc'.
Proof.
  unfold roster_team. intros Hin HJ H. run_inv H. subst acc'.
  match goal with
  | Hf : for_acc (roster_player ?name ?abbr) _ _ _ = _ |- _ =>
      eapply (@for_acc_invariant _ _ (roster_player name abbr) (joined teams));
      [ | exact HJ | exact Hf ]
  end.
  intros acc0 p st0 acc1 st1 _ HJ0 Hp.
  eapply roster_player_joined; eauto.
Qed.

(** X7: in the two tables [build_rosters_and_stats] returns, every
    roster row has the seven roster columns and repeats, under
    [team_abbr] and [team], the [team_abbr] and [team_name] cells of a
    row of the team table it was given; and every stat row has the
    [player_id] and [player] of a row of the roster table. *)
Theorem build_tables_joined
        (teams_df : DataFrame) (st : State)
        (rosters stats : DataFrame) (st' : State) :
  build_rosters_and_stats teams_df st = (Ok (rosters, stats), st') ->
  joined (iterrows teams_df) (df_records rosters, df_records stats).
Proof.
  unfold build_rosters_and_stats. intros H. run_inv H.
  match goal with
  | E : (_, _) = (_, _) |- _ => inversion E; subst; clear E
  end.
  cbn [df_records].
  match goal with
  | Hf : for_acc roster_team _ ?acc0 _ = (Ok ?a, _) |- _ =>
      destruct a as [r s0];
      apply (@for_acc_invariant _ _ roster_team (joined (iterrows teams_df))
               (iterrows teams_df)
               (fun acc x st0 acc1 st1 Hin HJ Hx =>
                  @roster_team_joined _ _ _ _ _ _ Hin HJ Hx)
               acc0 _ _ _) in Hf;
      [ exact Hf | split; constructor ]
  end.
Qed.

(* --------------------------------------------------------------------- *)
(** *** Requests and pauses *)

Section Requests.

(** A network that keeps a record of the URLs requested. *)
Variable requests : World -> list string.
Hypothesis requests_logged :
  forall w url, requests (snd (http_get w url)) = (requests w ++ [url])%list.

Lemma fetch_json_logged url st r st' :
  fetch_json url st = (r, st') ->
  requests (world st') = (requests (world st) ++ [url])%list /\
  pauses st' = pauses st.
Proof.
  rewrite fetch_json_run. specialize (requests_logged (world st) url).
  destruct (fetch_attempt _); intros H; inversion H; subst; now split.
Qed.

Lemma fetch_player_stats_logged pid name team pos st r st' :
  fetch_player_stats pid name team pos st = (r, st') ->
  requests (world st') = (requests (world st) ++ [player_url pid])%list /\
  pauses st' = pauses st.
Proof.
  destruct (fetch_json_total (player_url pid) st) as (data & st1 & F).
  rewrite (@fetch_player_stats_run _ _ _ _ _ _ _ F).
  intros H. inversion H; subst. eapply fetch_json_logged; eauto.
Qed.

Lemma roster_players_logged name abbr players : forall acc st acc' st',
  for_acc (roster_player name abbr) players acc st = (Ok acc', st') ->
  List.length (requests (world st'))
  = (List.length (requests (world st)) + List.length players)%nat /\
  pauses st' = pauses st.
Proof.
  induction players as [|p players IH]; simpl; intros acc st acc' st' H.
  - apply ret_inv in H. destruct H as [_ ->]. split; lia.
  - run_inv H.
    match goal with
    | H1 : roster_player _ _ _ _ _ = _ |- _ =>
        apply roster_player_inv in H1;
        destruct H1 as (d & id & first & last & pos & stats & _ & _ & _ & _
                        & _ & _ & _ & Hf & _)
    end.
    apply fetch_player_stats_logged in Hf. destruct Hf as [Hreq Hp].
    apply IH in H. destruct H as [Hreq' Hp'].
    rewrite Hreq', Hreq, length_app. cbn [List.length]. split; [lia|congruence].
Qed.

Lemma roster_team_logged acc team st acc' st' :
  roster_team acc team st = (Ok acc', st') ->
  (List.length (requests (world st')) + List.length (fst acc)
   = List.length (requests (world st)) + 1 + List.length (fst acc'))%nat /\
  pauses st' = S (pauses st).
Proof.
  unfold roster_team. intros H. run_inv H. subst acc'.
  match goal with
  | Hr : fetch_team_roster _ _ = _ |- _ =>
      unfold fetch_team_roster in Hr; run_inv Hr
  end.
  match goal with
  | Hj : fetch_json _ _ = (Ok ?data, ?s1), Hi : (if negb (truthy ?data) then _ else _) ?s1 = (Ok _, ?s2) |- _ =>
      apply fetch_json_logged in Hj; destruct Hj as [Hreq Hp];
      assert (Hs : s2 = s1)
        by (destruct (truthy data); cbn [negb] in Hi;
            [apply lift_inv in Hi | apply ret_inv in Hi]; now destruct Hi);
      subst s2; clear Hi
  end.
  match goal with
  | Hf : for_acc (roster_player _ _) ?players _ _ = _ |- _ =>
      pose proof (roster_players_one_row_each _ _ _ _ _ Hf) as Hlen;
      apply roster_players_logged in Hf; destruct Hf as [Hreq' Hp']
  end.
  cbn [world pauses] in *.
  rewrite Hreq, length_app in Hreq'. cbn [List.length] in Hreq'.
  split; [lia | congruence].
Qed.

Lemma roster_teams_logged teams : forall acc st acc' st',
  for_acc roster_team teams acc st = (Ok acc', st') ->
  (List.length (requests (world st')) + List.length (fst acc)
   = List.length (requests (world st)) + List.length teams
     + List.length (fst acc'))%nat /\
  pauses st' = (pauses st + List.length teams)%nat.
Proof.
  induction teams as [|t teams IH]; simpl; intros acc st acc' st' H.
  - apply ret_inv in H. destruct H as [-> ->]. split; lia.
  - run_inv H.
    match goal with
    | H1 : roster_team _ _ _ = _ |- _ =>
        apply roster_team_logged in H1; destruct H1 as [Hreq Hp]
    end.
    apply IH in H. destruct H as [Hreq' Hp']. split; lia.
Qed.

(** X8: when [build_rosters_and_stats] returns, it has paused exactly
    once per row of the team table, and it has made exactly one request
    per row of the team table (the roster) plus one per row of the
    roster table (the player profile). *)
Theorem build_pauses_and_requests
        (teams_df : DataFrame) (st : State)
        (rosters stats : DataFrame) (st' : State) :
  build_rosters_and_stats teams_df st = (Ok (rosters, stats), st') ->
  pauses st' = (pauses st + df_len teams_df)%nat /\
  List.length (requests (world st'))
  = (List.length (requests (world st)) + df_len teams_df
     + df_len rosters)%nat.
Proof.
  unfold build_rosters_and_stats. intros H. run_inv H.
  match goal with
  | E : (_, _) = (_, _) |- _ => inversion E; subst; clear E
  end.
  match goal with
  | Hf : for_acc roster_team _ _ _ = _ |- _ =>
      apply roster_teams_logged in Hf; destruct Hf as [Hreq Hp]
  end.
  unfold df_len, iterrows in *. cbn [df_records fst List.length] in *.
  rewrite length_map in *. split; lia.
Qed.

Lemma for_each_logged {A B} (f : A -> M B) (h : B -> list string) xs :
  (forall x st y st',
     f x st = (Ok y, st') ->
     requests (world st') = (requests (world st) ++ h y)%list /\
     pauses st' = pauses st) ->
  forall st ys st',
    for_each f xs st = (Ok ys, st') ->
    requests (world st') = (requests (world st) ++ flat_map h ys)%list /\
    pauses st' = pauses st.
Proof.
  intros Hf. induction xs as [|x xs IH]; simpl; intros st ys st' H.
  - apply ret_inv in H. destruct H as [-> ->]. now rewrite app_nil_r.
  - run_inv H. subst ys.
    match goal with
    | H1 : f x st = _ |- _ => apply Hf in H1; destruct H1 as [Hr Hp]
    end.
    match goal with
    | H2 : for_each f xs _ = _ |- _ => apply IH in H2; destruct H2 as [Hr' Hp']
    end.
    cbn [flat_map]. rewrite Hr', Hr, <- app_assoc. split; [reflexivity|congruence].
Qed.

Lemma standings_row_abbr entry abbr row :
  standings_row entry = Ok (abbr, row) ->
  dict_lookup row "team_abbr" = Some abbr.
Proof.
  intros H. apply standings_row_inv in H. destruct H as [_ H].
  destruct (display_lookup H (team_data_keys_distinct abbr)
              "team_abbr" (Local abbr)) as (v & Hv & Hl).
  - now left.
  - simpl in Hv. congruence.
Qed.

Lemma team_entry_logged entry st row st' :
  team_entry entry st = (Ok row, st') ->
  requests (world st')
  = (requests (world st) ++ team_urls (read_or row "team_abbr" VNone))%list /\
  pauses st' = pauses st.
Proof.
  intros H.
  destruct (team_entry_inv _ _ H) as [(abbr & base & Hrow & Hkeep) _].
  assert (Habbr : read_or row "team_abbr" VNone = abbr).
  { unfold read_or. rewrite Hkeep.
    - now rewrite (standings_row_abbr _ Hrow).
    - apply standings_row_inv in Hrow. destruct Hrow as [_ HF].
      rewrite (display_keys HF). now left. }
  rewrite Habbr.
  unfold team_entry in H. run_inv H.
  match goal with
  | Hr : standings_row entry = Ok ?a |- _ =>
      rewrite Hrow in Hr; injection Hr as <-
  end.
  cbn [fst snd] in *. fold (cayenne_of abbr) in *.
  repeat match goal with
  | Hj : fetch_json _ _ = _ |- _ =>
      apply fetch_json_logged in Hj; destruct Hj as [? ?]
  end.
  unfold team_urls.
  split; [|congruence].
  repeat match goal with
  | Hq : requests (world ?s) = _ |- context [requests (world ?s)] => rewrite Hq
  end.
  rewrite <- !app_assoc. reflexivity.
Qed.

(** X9: when [fetch_teams] returns a table, the requests it made are
    the standings URL followed, for each row of the table in order, by
    that team's power-play, goals-by-period and faceoff URLs: one plus
    three per team.  It never pauses. *)
Theorem fetch_teams_requests (st : State) (df : DataFrame) (st' : State) :
  fetch_teams st = (Ok df, st') ->
  requests (world st')
  = (requests (world st)
       ++ standings_url
       :: flat_map (fun row => team_urls (read_or row "team_abbr" VNone))
                   (df_records df))%list /\
  List.length (requests (world st'))
  = (List.length (requests (world st)) + 1 + 3 * df_len df)%nat /\
  pauses st' = pauses st.
Proof.
  intros H.
  assert (Hlog : requests (world st')
                 = (requests (world st)
                      ++ standings_url
                      :: flat_map (fun row =>
                                     team_urls (read_or row "team_abbr" VNone))
                                  (df_records df))%list /\
                 pauses st' = pauses st).
  { destruct (fetch_json_total standings_url st) as (data & st1 & F).
    rewrite (@fetch_teams_run _ _ _ F) in H.
    apply fetch_json_logged in F. destruct F as [Hreq Hp].
    destruct (truthy data); cbn [negb] in H.
    - run_inv H. subst df. cbn [df_records].
      match goal with
      | Hf : for_each team_entry _ _ = _ |- _ =>
          destruct (@for_each_logged _ _ team_entry
                      (fun row => team_urls (read_or row "team_abbr" VNone))
                      _ team_entry_logged _ _ _ Hf) as [Hreq' Hp']
      end.
      rewrite Hreq', Hreq, <- app_assoc. split; [reflexivity | congruence].
    - apply ret_inv in H. destruct H as [-> ->]. cbn [df_records flat_map].
      now rewrite Hreq. }
  destruct Hlog as [Hlog Hp]. split; [exact Hlog|]. split; [|exact Hp].
  rewrite Hlog, length_app. cbn [List.length]. unfold df_len.
  assert (Hlen : forall rows : list dict,
            List.length
              (flat_map (fun row => team_urls (read_or row "team_abbr" VNone))
                        rows)
            = (3 * List.length rows)%nat).
  { induction rows as [|r rows IH]; [reflexivity|].
    cbn [flat_map]. rewrite length_app, IH. cbn [team_urls List.length]. lia. }
  rewrite Hlen. lia.
Qed.

End Requests.

(* --------------------------------------------------------------------- *)
(** *** When an entry cannot be turned into a row *)

(** X11: on a standings entry that has the five identity fields, a
    [regulationPlusOtWins] or [regulationWins] that is absent or null
    makes the row construction raise [TypeError]: the fields before
    [reg_ot_wins] in the display all evaluate, and the subtraction is
    the first expression to fail. *)
Theorem missing_operand_raises_TypeError
        (d : dict) (abbr name conf div logo : value) :
  eval_field (VDict d) (Sub2 "teamAbbrev" "default") = Ok abbr ->
  eval_field (VDict d) (Sub2 "teamName" "default") = Ok name ->
  dict_lookup d "conferenceName" = Some conf ->
  dict_lookup d "divisionName" = Some div ->
  dict_lookup d "teamLogo" = Some logo ->
  read_or d "regulationPlusOtWins" VNone = VNone \/
  read_or d "regulationWins" VNone = VNone ->
  standings_row (VDict d) = Raise TypeError.
Proof using.
  intros Ha Hn Hc Hdv Hl Hop. unfold standings_row. rewrite Ha. cbn [rbind].
  rewrite <- (firstn_skipn 19 (team_data_fields abbr)).
  cbn [team_data_fields firstn skipn].
  rewrite (@dict_display_first_raise (VDict d) _ _ _ _ TypeError).
  - reflexivity.
  - repeat (apply Forall_cons;
            [ unfold evaluates; cbn [snd]; eexists;
              first [ apply eval_Get | apply eval_GetOr | reflexivity
                    | eassumption | apply eval_Sub1; eassumption ] | ]).
    apply Forall_nil.
  - now apply reg_ot_wins_missing.
Qed.

Lemma for_each_raises {A B} (f : A -> M B) good bad rest e :
  (forall x, In x good -> forall s, exists y s', f x s = (Ok y, s')) ->
  (forall s, f bad s = (Raise e, s)) ->
  forall st, exists st', for_each f (good ++ bad :: rest) st = (Raise e, st').
Proof.
  intros Hgood Hbad.
  induction good as [|x good IH]; intros st; simpl.
  - exists st. now rewrite (@bind_raise _ _ _ _ _ _ _ (Hbad st)).
  - destruct (Hgood x (or_introl eq_refl) st) as (y & s1 & Hx).
    rewrite (@bind_ok _ _ _ _ _ _ _ Hx).
    destruct (IH (fun x' Hin => Hgood x' (or_intror Hin)) s1) as (st' & Hr).
    exists st'. now rewrite (@bind_raise _ _ _ _ _ _ _ Hr).
Qed.

(** X10: one malformed entry anywhere in the standings aborts the whole
    run.  If the entries before it are complete, the statistics host
    answers with well-formed payloads and [standings_row] raises [e] on
    the entry, then [fetch_teams] raises [e] -- the rows already built
    are lost -- and [main] ends in [e] without writing a file or making
    a directory. *)
Theorem bad_entry_aborts_run
        (st0 st1 : State) (data : value) (good : list value) (bad : value)
        (rest : list value) (e : exn) :
  fetch_json standings_url (with_line st0 LineStarting) = (Ok data, st1) ->
  truthy data = true ->
  py_get data "standings" (VList []) = Ok (VList (good ++ bad :: rest)) ->
  serves_well_formed_stats ->
  Forall complete_entry good ->
  standings_row bad = Raise e ->
  exists st2,
    fetch_teams (with_line st0 LineStarting) = (Raise e, st2) /\
    main st0 = (Raise e, st2) /\
    files st2 = files st0 /\ dirs st2 = dirs st0.
Proof.
  intros F T Hs Hw Hgood Hbad.
  destruct (@for_each_raises _ _ team_entry good bad rest e) with (st := st1)
    as (st2 & Hloop).
  - intros x Hx s. rewrite Forall_forall in Hgood.
    destruct (complete_entry_row (Hgood x Hx)) as (abbr & base & Hrow).
    eapply team_entry_total; eauto.
  - intros s. unfold team_entry.
    apply bind_raise. unfold lift. now rewrite Hbad.
  - exists st2.
    assert (Hteams : fetch_teams (with_line st0 LineStarting) = (Raise e, st2)).
    { rewrite (@fetch_teams_run _ _ _ F), T. cbn [negb].
      rewrite (@bind_ok _ _ _ _ _ _ _ (@lift_ok _ _ _ st1 Hs)).
      rewrite (@bind_ok _ _ _ _ st1 (good ++ bad :: rest)%list st1) by reflexivity.
      now rewrite (@bind_raise _ _ _ _ _ _ _ Hloop). }
    split; [exact Hteams|].
    destruct (fs_stable_fetch_teams (with_line st0 LineStarting)) as [Hf Hd].
    rewrite Hteams in Hf, Hd. cbn [snd with_line files dirs] in Hf, Hd.
    split; [|split; [exact Hf | exact Hd]].
    unfold main.
    rewrite (@bind_ok _ _ _ _ _ _ _ (print_run LineStarting st0)).
    now rewrite (@bind_raise _ _ _ _ _ _ _ Hteams).
Qed.

(* --------------------------------------------------------------------- *)
(** *** The query in the statistics URLs *)

Lemma string_app_assoc (a b c : string) : (a ++ b) ++ c = a ++ (b ++ c).
Proof. induction a as [|x a IH]; simpl; [reflexivity | now rewrite IH]. Qed.

Lemma quote_app a b : quote (a ++ b) = quote a ++ quote b.
Proof.
  induction a as [|x a IH]; simpl; [reflexivity|].
  now rewrite IH, string_app_assoc.
Qed.

Lemma all_chars_app p a b :
  all_chars p (a ++ b) = andb (all_chars p a) (all_chars p b).
Proof.
  induction a as [|x a IH]; simpl; [reflexivity|].
  now rewrite IH, andb_assoc.
Qed.

Lemma quote_char_quoted c : all_chars quoted_char (quote_char c) = true.
Proof. destruct c as [[] [] [] [] [] [] [] []]; reflexivity. Qed.

Lemma quote_quoted s : all_chars quoted_char (quote s) = true.
Proof.
  induction s as [|c s IH]; simpl; [reflexivity|].
  now rewrite all_chars_app, quote_char_quoted, IH.
Qed.

Lemma quote_unreserved s : all_chars unreserved s = true -> quote s = s.
Proof.
  induction s as [|c s IH]; simpl; [reflexivity|].
  intros H. apply andb_true_iff in H. destruct H as [Hc Hs].
  unfold quote_char. unfold unreserved in Hc. rewrite Hc, (IH Hs).
  reflexivity.
Qed.

(** X12: for a team abbreviation that is a string of code points below
    256 (the strings of this model), the query placed in the three
    statistics URLs is [teamAbbrev%3D%27], the quoted abbreviation,
    [%27%20and%20seasonId%3D20242025].  It consists of letters, digits,
    [_.-~/] and [%] only; and an abbreviation made of letters, digits
    and [_.-~/] appears in it unchanged.  Nothing is said of an
    abbreviation with a code point from 256 up or a lone surrogate. *)
Theorem cayenne_expression_shape (abbr : string) :
  cayenne_of (VStr abbr)
  = "teamAbbrev%3D%27" ++ quote abbr ++ "%27%20and%20seasonId%3D20242025"
  /\ all_chars quoted_char (cayenne_of (VStr abbr)) = true
  /\ (all_chars unreserved abbr = true ->
      cayenne_of (VStr abbr)
      = "teamAbbrev%3D%27" ++ abbr ++ "%27%20and%20seasonId%3D20242025").
Proof.
  assert (Hshape : cayenne_of (VStr abbr)
                   = "teamAbbrev%3D%27" ++ quote abbr
                       ++ "%27%20and%20seasonId%3D20242025").
  { unfold cayenne_of. cbn [py_str]. now rewrite !quote_app. }
  split; [exact Hshape|]. split.
  - unfold cayenne_of. apply quote_quoted.
  - intros H. now rewrite Hshape, (quote_unreserved _ H).
Qed.

End Program.


(* ===================================================================== *)
(** ** Runs on the sample sites *)
(* ===================================================================== *)

Module Run.
Import Sample.

(** The state a run starts in: nothing printed, no file, no directory. *)
Abbreviation init := (mkState tt [] 0%nat [] []).

Abbreviation teams_of s := (fetch_teams (serve s) repr_plain init).
Abbreviation main_of s := (main (serve s) repr_plain init).
Abbreviation stats_of s :=
  (fetch_player_stats (serve s) repr_plain (VInt 8479318) "Auston Matthews"
                      (VStr "Toronto Maple Leafs") (VStr "C") init).

(** Point at a field of a display. *)
Ltac find_field :=
  cbn [team_data_fields In]; repeat first [ left; reflexivity | right ].

(** The URLs the program builds are the ones the sites list. *)
Lemma urls_as_built :
  standings_url = url_standings /\
  stats_url "powerplay"
    (quote ("teamAbbrev='" ++ py_str repr_plain (VStr "TOR")
              ++ "' and seasonId=" ++ SEASON_ID_OFFSEASON))
  = url_powerplay_TOR /\
  roster_url (lower "TOR") = url_roster_TOR /\
  player_url repr_plain (VInt 8479318) = url_player_8479318.
Proof. repeat split. Qed.

(** A site serves well-formed statistics when each of its documents is
    well formed or not at a statistics URL. *)
Lemma serve_well_formed (s : site) :
  Forall (fun uv =>
            well_formed_stats (snd uv) \/
            forall resource expr,
              String.eqb (stats_url resource expr) (fst uv) = false) s ->
  serves_well_formed_stats (serve s).
Proof.
  intros H w resource expr. unfold serve. cbn [fst].
  induction H as [|[u v] s' Huv _ IH]; cbn [page].
  - exact I.
  - cbn [fst snd] in Huv.
    destruct (String.eqb (stats_url resource expr) u) eqn:E.
    + cbn. destruct Huv as [Hw | Hne]; [exact Hw|].
      rewrite Hne in E. discriminate.
    + exact IH.
Qed.

Lemma site_two_teams_well_formed :
  serves_well_formed_stats (serve site_two_teams).
Proof.
  apply serve_well_formed. unfold site_two_teams.
  repeat (apply Forall_cons;
          [ cbn [fst snd];
            first
              [ right; intros; reflexivity
              | left; right; eexists _, _;
                split; [reflexivity|]; split; [reflexivity|];
                first [ now left | right; eexists _, _; reflexivity ] ]
          | ]).
  apply Forall_nil.
Qed.

Lemma entry_TOR_complete : complete_entry entry_TOR.
Proof.
  exists fields_TOR, (VStr "TOR"), (VStr "Toronto Maple Leafs"),
    (VStr "Eastern"), (VStr "Atlantic"),
    (VStr "https://assets.nhle.com/logos/nhl/svg/TOR_light.svg"), 40, 30.
  repeat split.
Qed.

Lemma entry_MTL_complete : complete_entry entry_MTL.
Proof.
  unfold entry_MTL.
  eexists _, (VStr "MTL"), (VStr "Montreal Canadiens"),
    (VStr "Eastern"), (VStr "Atlantic"),
    (VStr "https://assets.nhle.com/logos/nhl/svg/MTL_light.svg"), 37, 30.
  repeat split.
Qed.

(* --------------------------------------------------------------------- *)
(** *** The derived field *)

(** C1: with both operands present the derived field is their
    difference (40 and 30 give 10).  On an entry without
    [regulationWins] the subtraction has [None] as an operand and raises
    [TypeError]; nothing catches it, so [fetch_teams] and [main] end in
    that exception and no file is written. *)
Theorem missing_regulation_wins_raises :
  eval_field entry_TOR (GetMinusGet "regulationPlusOtWins" "regulationWins")
  = Ok (VInt 10) /\
  py_get entry_no_regulation_wins "regulationWins" VNone = Ok VNone /\
  eval_field entry_no_regulation_wins
             (GetMinusGet "regulationPlusOtWins" "regulationWins")
  = Raise TypeError /\
  standings_row entry_no_regulation_wins = Raise TypeError /\
  fst (teams_of (site_standings_only entry_no_regulation_wins))
  = Raise TypeError /\
  fst (main_of (site_standings_only entry_no_regulation_wins))
  = Raise TypeError /\
  files (snd (main_of (site_standings_only entry_no_regulation_wins))) = [].
Proof. repeat split. Qed.

(* --------------------------------------------------------------------- *)
(** *** Identity fields *)

(** C2, as stated, fails: the entry has no [conferenceName]; reading it
    with [get] would give [None], but the row is built with
    [entry["conferenceName"]], which raises [KeyError], and so does
    [fetch_teams]. *)
Lemma absent_identity_key_raises :
  py_get entry_no_conference "conferenceName" VNone = Ok VNone /\
  standings_row entry_no_conference
  = Raise (KeyError (VStr "conferenceName")) /\
  fst (teams_of (site_standings_only entry_no_conference))
  = Raise (KeyError (VStr "conferenceName")).
Proof. repeat split. Qed.

Lemma record_fields_null_safe_witness :
  (exists row,
     standings_row entry_TOR = Ok (VStr "TOR", row) /\
     dict_lookup row "wins" = Some (VInt 52) /\
     dict_lookup row "points" = Some VNone /\
     dict_lookup row "clinch" = Some (VStr "") /\
     dict_lookup row "conference" = Some (VStr "Eastern")) /\
  standings_row entry_no_conference
  = Raise (KeyError (VStr "conferenceName")).
Proof.
  split.
  - destruct (proj1 (proj2 (record_fields_null_safe fields_TOR))
                (VStr "TOR") (VStr "Toronto Maple Leafs") (VStr "Eastern")
                (VStr "Atlantic")
                (VStr "https://assets.nhle.com/logos/nhl/svg/TOR_light.svg")
                (VInt 10) eq_refl eq_refl eq_refl eq_refl eq_refl eq_refl)
      as (row & Hrow & _ & Hget & Hor & _ & _ & Hconf & _).
    exists row. split; [exact Hrow|].
    split; [apply (Hget "wins" "wins"); find_field|].
    split; [apply (Hget "points" "points"); find_field|].
    split; [apply (Hor "clinch" "clinchIndicator" (VStr "")); find_field|].
    exact Hconf.
  - unfold entry_no_conference.
    match goal with
    | |- standings_row (VDict ?d) = _ =>
        refine (proj2 (proj1 (proj2 (proj2 (record_fields_null_safe d)))
                         [ ("teamAbbrev", Sub2 "teamAbbrev" "default");
                           ("teamName", Sub2 "teamName" "default") ]
                         "conferenceName" (Sub1 "conferenceName")
                         [ ("divisionName", Sub1 "divisionName");
                           ("teamLogo", Sub1 "teamLogo") ]
                         eq_refl _)
                      eq_refl)
    end.
    apply Forall_cons; [eexists; reflexivity|].
    apply Forall_cons; [eexists; reflexivity | apply Forall_nil].
Defined.

(** The error of an absent identity key need not be a [KeyError]: here
    [conferenceName] is absent, but the abbreviation is a plain string,
    and subscripting it with [default] on line 44 raises [TypeError]
    before [conferenceName] is read. *)
Lemma plain_abbreviation_raises_TypeError :
  dict_has [ ("teamAbbrev", VStr "TOR");
             ("teamName", localized "Toronto Maple Leafs") ]
           "conferenceName" = false /\
  standings_row entry_plain_abbrev = Raise TypeError.
Proof. split; reflexivity. Qed.

(* --------------------------------------------------------------------- *)
(** *** Supplementary payloads *)

(** C3: a JSON object without the key [data] is a payload with no rows.
    The goals-by-period and faceoff merges read it with [get("data")]
    and leave the record as it is; the power-play merge subscripts
    [pp_data["data"]] and raises [KeyError], which ends [fetch_teams]. *)
Theorem powerplay_without_data_raises :
  merge_powerplay fields_TOR message_payload
  = Raise (KeyError (VStr "data")) /\
  merge_goalsbyperiod fields_TOR message_payload = Ok fields_TOR /\
  merge_faceoff fields_TOR message_payload = Ok fields_TOR /\
  merge_powerplay fields_TOR no_rows_payload = Ok fields_TOR /\
  merge_powerplay fields_TOR VNone = Ok fields_TOR /\
  fst (teams_of site_powerplay_message) = Raise (KeyError (VStr "data")) /\
  (exists row, fst (teams_of site_goalsbyperiod_message)
               = Ok (mkDataFrame [row])).
Proof. repeat split. eexists. reflexivity. Qed.

(* --------------------------------------------------------------------- *)
(** *** Career rows *)

(** C4, as stated, fails: both career keys are in the profile, but the
    value under one of them is the empty object (or null); that key is
    skipped and three rows come back, not four. *)
Lemma career_key_with_empty_value_skipped :
  dict_has (profile_fields (VDict []) (career_entry 23)) "seasonTotals"
  = true /\
  dict_has (career_totals (VDict []) (career_entry 23)) "regularSeason"
  = true /\
  dict_has (career_totals (VDict []) (career_entry 23)) "playoffs" = true /\
  (exists r1 r2 r3,
     stats_of (site_profile profile_empty_career) = (Ok [r1; r2; r3], init) /\
     tagged r1 "season" "regular" /\ tagged r2 "season" "playoffs" /\
     tagged r3 "career" "playoffs") /\
  (exists r1 r2 r3,
     stats_of (site_profile profile_null_career) = (Ok [r1; r2; r3], init) /\
     tagged r1 "season" "regular" /\ tagged r2 "season" "playoffs" /\
     tagged r3 "career" "regular").
Proof.
  repeat split; eexists _, _, _; (split; [reflexivity|]); repeat split.
Qed.

Lemma stat_rows_in_order_witness :
  exists r1 r2 r3 r4,
    stats_of (site_profile profile_payload) = (Ok [r1; r2; r3; r4], init) /\
    tagged r1 "season" "regular" /\ tagged r2 "season" "playoffs" /\
    tagged r3 "career" "regular" /\ tagged r4 "career" "playoffs".
Proof.
  refine (proj1 (@stat_rows_in_order unit (serve (site_profile profile_payload))
                   repr_plain (VInt 8479318) "Auston Matthews"
                   (VStr "Toronto Maple Leafs") (VStr "C") init init
                   (profile_fields (career_entry 368) (career_entry 23))
                   eq_refl _)
                (season_fields 2 69) (season_fields 3 4)
                (career_totals (career_entry 368) (career_entry 23))
                (career_fields 368) (career_fields 23)
                eq_refl eq_refl eq_refl eq_refl eq_refl _ eq_refl _);
    discriminate.
Defined.

(* --------------------------------------------------------------------- *)
(** *** Game-type codes *)

(** C8, as stated, fails: a game-type code that is a JSON array is not
    mapped to "other"; the dict lookup raises [TypeError], and so does
    [fetch_player_stats]. *)
Lemma array_game_type_raises :
  game_type_of season_fields_array_code = VList [] /\
  season_type_of (VList []) = Raise TypeError /\
  season_row (VInt 8479318) "Auston Matthews" (VStr "C")
             (VDict season_fields_array_code) = Raise TypeError /\
  fst (stats_of (site_profile profile_array_code)) = Raise TypeError.
Proof. repeat split. Qed.

Lemma season_type_from_game_type_witness :
  exists row,
    season_row (VInt 8479318) "Auston Matthews" (VStr "C") (season_entry 3 4)
    = Ok row /\
    tagged row "season" "playoffs".
Proof.
  exact (proj1 (season_type_from_game_type (VInt 8479318) "Auston Matthews"
                  (VStr "C") (season_fields 3 4)) eq_refl).
Defined.

(* --------------------------------------------------------------------- *)
(** *** Whole runs *)

Lemma team_table_follows_standings_witness :
  exists df st2,
    teams_of site_two_teams = (Ok df, st2) /\
    df_len df = 2%nat /\
    Forall2 row_of_entry [entry_TOR; entry_MTL] (df_records df).
Proof.
  destruct (@team_table_follows_standings unit (serve site_two_teams)
              repr_plain init init (standings_of [entry_TOR; entry_MTL])
              [entry_TOR; entry_MTL] eq_refl eq_refl eq_refl)
    as [Hrows Htotal].
  destruct (Htotal site_two_teams_well_formed
              (Forall_cons _ entry_TOR_complete
                 (Forall_cons _ entry_MTL_complete (Forall_nil _))))
    as (df & st2 & H).
  exists df, st2. split; [exact H|]. exact (Hrows _ _ H).
Defined.

Lemma roster_is_concatenation_witness :
  fetch_team_roster (serve site_two_teams) (VStr "TOR") init
  = (Ok (VList [ player 8479318 "Auston" "Matthews" "C";
                 player 8476853 "Morgan" "Rielly" "D";
                 player 8479361 "Joseph" "Woll" "G" ]), init)
  /\
  fetch_team_roster (serve site_two_teams) (VStr "MTL") init
  = (Ok (VList []),
     mkState tt [LineFetchFailed "https://api-web.nhle.com/v1/roster/mtl/20252026"
                                 "404 Client Error: Not Found"] 0%nat [] []).
Proof.
  split.
  - exact (proj1 (@roster_is_concatenation unit (serve site_two_teams)
                    repr_plain "TOR" init init roster_payload eq_refl)
                 eq_refl _ _ _ eq_refl eq_refl eq_refl).
  - exact (proj1 (proj2 (proj2 (@roster_is_concatenation unit
                    (serve site_two_teams) repr_plain "MTL" init _ VNone
                    eq_refl)) eq_refl)).
Defined.

Lemma main_stops_without_teams_witness :
  main_of site_empty_objects
  = (Ok tt, mkState tt [LineStarting; LineNoTeams] 0%nat [] []).
Proof.
  exact (proj1 (proj1 (@main_stops_without_teams unit
                         (serve site_empty_objects) repr_plain init)
                      (VDict []) _ eq_refl (or_introl eq_refl))).
Defined.

Lemma falsy_payload_like_failure_witness :
  teams_of site_empty_objects = (Ok DataFrame_empty, init) /\
  fetch_team_roster (serve site_empty_objects) (VStr "TOR") init
  = (Ok (VList []), init) /\
  stats_of (site_profile (VDict [])) = (Ok [], init).
Proof.
  split; [|split].
  - exact (proj1 (proj1 (@falsy_payload_like_failure unit
                           (serve site_empty_objects) repr_plain (VDict [])
                           init init eq_refl) eq_refl)).
  - exact (proj1 (proj2 (@falsy_payload_like_failure unit
                           (serve site_empty_objects) repr_plain (VDict [])
                           init init eq_refl)) "TOR" eq_refl).
  - exact (proj2 (proj2 (@falsy_payload_like_failure unit
                           (serve (site_profile (VDict []))) repr_plain
                           (VDict []) init init eq_refl))
                 (VInt 8479318) "Auston Matthews"
                 (VStr "Toronto Maple Leafs") (VStr "C") eq_refl).
Defined.

(* --------------------------------------------------------------------- *)
(** *** Further runs *)

Lemma reg_ot_wins_is_difference_witness :
  exists row,
    standings_row entry_TOR = Ok (VStr "TOR", row) /\
    dict_lookup row "reg_ot_wins" = Some (VInt 10).
Proof.
  eexists. split; [reflexivity|].
  exact (@reg_ot_wins_is_difference fields_TOR (VStr "TOR") _ 40 30
           eq_refl eq_refl eq_refl).
Defined.

Lemma supplementary_merges_witness :
  merges_row (merge_powerplay fields_TOR powerplay_payload) fields_TOR
             [ ("powerPlayPct", VFloat 0.25);
               ("powerPlayGoalsFor", VInt 60);
               ("ppOpportunities", VInt 240) ]
             powerplay_fields
  /\ merge_faceoff fields_TOR no_rows_payload = Ok fields_TOR
  /\ merge_goalsbyperiod fields_TOR VNone = Ok fields_TOR.
Proof.
  split; [|split].
  - exact (proj1 (proj1 (proj2 (proj2
             (supplementary_merges fields_TOR powerplay_payload)))
             _ _ _ eq_refl eq_refl)).
  - exact (proj2 (proj2 (proj1 (proj2
             (supplementary_merges fields_TOR no_rows_payload))
             _ eq_refl eq_refl))).
  - exact (proj1 (proj2 (proj1
             (supplementary_merges fields_TOR VNone) eq_refl))).
Defined.

(** A whole run, end to end: with one team in the standings, one forward on its
    roster and a profile with one season entry of game type 2 and no
    career totals, the run succeeds and writes [teams.csv] with one row,
    [rosters.csv] with one row and [player_stats.csv] with exactly one
    row, tagged season and regular. *)
Theorem one_team_end_to_end :
  exists teams roster_row stat_row,
    fst (main_of site_one_team) = Ok tt /\
    files (snd (main_of site_one_team))
    = [ ("data/teams.csv", teams);
        ("data/rosters.csv", mkDataFrame [roster_row]);
        ("data/player_stats.csv", mkDataFrame [stat_row]) ] /\
    df_len teams = 1%nat /\
    dict_lookup roster_row "player" = Some (VStr "Auston Matthews") /\
    tagged stat_row "season" "regular" /\
    dirs (snd (main_of site_one_team)) = ["data"].
Proof.
  set (run := main_of site_one_team). vm_compute in run. subst run.
  cbn [fst snd files dirs].
  eexists _, _, _. split; [reflexivity|]. split; [reflexivity|].
  repeat split.
Qed.

Lemma season_row_passes_through_witness :
  exists row,
    season_row (VInt 8479318) "Auston Matthews" (VStr "C") (season_entry 2 69)
    = Ok row /\
    dict_lookup row "goals" = Some (VInt 69) /\
    dict_lookup row "team" = Some (localized "Toronto Maple Leafs") /\
    map fst row
    = [ "season"; "gameTypeId"; "teamName"; "goals"; "player_id"; "player";
        "team"; "type"; "season_scope"; "positionCode" ].
Proof.
  eexists. split; [reflexivity|].
  destruct (@season_row_passes_through (VInt 8479318) "Auston Matthews"
              (VStr "C") (season_entry 2 69) _ eq_refl)
    as (d & Hd & Hkeys & Hpass & _ & _ & Hteam & _).
  injection Hd as <-.
  split; [rewrite Hpass; [reflexivity | cbn; intuition discriminate]|].
  split; [exact Hteam | exact Hkeys].
Defined.

Lemma career_row_passes_through_witness :
  exists row,
    career_row profile_payload (VInt 8479318) "Auston Matthews"
               (VStr "Toronto Maple Leafs") (VStr "C")
               ("playoffs", "playoffs") = Ok (Some row) /\
    dict_lookup row "team" = Some (VStr "Toronto Maple Leafs") /\
    dict_lookup row "type" = Some (VStr "playoffs").
Proof.
  eexists. split; [reflexivity|].
  destruct (@career_row_passes_through profile_payload (VInt 8479318)
              "Auston Matthews" (VStr "Toronto Maple Leafs") (VStr "C")
              "playoffs" "playoffs" _ eq_refl)
    as (d & totals & c & _ & _ & _ & _ & _ & _ & _ & _ & Hteam & Htype & _).
  split; [exact Hteam | exact Htype].
Defined.

Lemma stat_rows_carry_player_witness :
  exists rows,
    stats_of (site_profile profile_payload) = (Ok rows, init) /\
    List.length rows = 4%nat /\
    Forall (carries_player (VInt 8479318) "Auston Matthews" (VStr "C")) rows.
Proof.
  assert (Hrun : exists rows,
             stats_of (site_profile profile_payload) = (Ok rows, init) /\
             List.length rows = 4%nat)
    by (vm_compute; eexists; split; reflexivity).
  destruct Hrun as (rows & Hrun & Hlen).
  exists rows. split; [exact Hrun|]. split; [exact Hlen|].
  exact (proj1 (@stat_rows_carry_player unit
                  (serve (site_profile profile_payload)) repr_plain
                  (VInt 8479318) "Auston Matthews"
                  (VStr "Toronto Maple Leafs") (VStr "C") init init rows
                  Hrun)).
Defined.

Lemma roster_row_shape_witness :
  exists acc' st',
    roster_player (serve site_two_teams) repr_plain
                  (VStr "Toronto Maple Leafs") (VStr "TOR") ([], [])
                  (player 8479318 "Auston" "Matthews" "C") init
    = (Ok acc', st') /\
    roster_step (serve site_two_teams) repr_plain
                (VStr "Toronto Maple Leafs") (VStr "TOR") ([], [])
                (player 8479318 "Auston" "Matthews" "C") init acc' st'.
Proof.
  assert (Hrun : exists acc' st',
             roster_player (serve site_two_teams) repr_plain
                           (VStr "Toronto Maple Leafs") (VStr "TOR") ([], [])
                           (player 8479318 "Auston" "Matthews" "C") init
             = (Ok acc', st'))
    by (vm_compute; eexists _, _; reflexivity).
  destruct Hrun as (acc' & st' & Hrun).
  exists acc', st'. split; [exact Hrun|].
  exact (proj1 (@roster_row_shape unit (serve site_two_teams) repr_plain
                  (VStr "Toronto Maple Leafs") (VStr "TOR") ([], [])
                  (player 8479318 "Auston" "Matthews" "C") init acc' st'
                  Hrun)).
Defined.

Lemma build_tables_joined_witness :
  exists rosters stats st',
    build_rosters_and_stats (serve site_two_teams) repr_plain teams_table init
    = (Ok (rosters, stats), st') /\
    df_len rosters = 3%nat /\ df_len stats = 4%nat /\
    joined (iterrows teams_table) (df_records rosters, df_records stats).
Proof.
  assert (Hrun : exists rosters stats st',
             build_rosters_and_stats (serve site_two_teams) repr_plain
                                     teams_table init
             = (Ok (rosters, stats), st') /\
             df_len rosters = 3%nat /\ df_len stats = 4%nat)
    by (vm_compute; eexists _, _, _; repeat split).
  destruct Hrun as (rosters & stats & st' & Hrun & Hr & Hs).
  exists rosters, stats, st'.
  split; [exact Hrun|]. split; [exact Hr|]. split; [exact Hs|].
  exact (@build_tables_joined unit (serve site_two_teams) repr_plain
           teams_table init rosters stats st' Hrun).
Defined.

(** The state a run on the recording network starts in. *)
Abbreviation init_logged := (mkState (@nil string) [] 0%nat [] []).

Lemma build_pauses_and_requests_witness :
  exists rosters stats st',
    build_rosters_and_stats (serve_logged site_two_teams) repr_plain
                            teams_table init_logged
    = (Ok (rosters, stats), st') /\
    pauses st' = 2%nat /\
    List.length (world st') = 5%nat.
Proof.
  assert (Hrun : exists rosters stats st',
             build_rosters_and_stats (serve_logged site_two_teams) repr_plain
                                     teams_table init_logged
             = (Ok (rosters, stats), st') /\ df_len rosters = 3%nat)
    by (vm_compute; eexists _, _, _; split; reflexivity).
  destruct Hrun as (rosters & stats & st' & Hrun & Hlen).
  exists rosters, stats, st'. split; [exact Hrun|].
  destruct (@build_pauses_and_requests (list string)
              (serve_logged site_two_teams) repr_plain (fun w => w)
              (fun w url => eq_refl) teams_table init_logged rosters stats st'
              Hrun) as [Hp Hq].
  rewrite Hlen in Hq. split; [exact Hp | exact Hq].
Defined.

Lemma fetch_teams_requests_witness :
  exists df st',
    fetch_teams (serve_logged site_two_teams) repr_plain init_logged
    = (Ok df, st') /\
    List.length (world st') = 7%nat /\
    firstn 2 (world st') = [url_standings; url_powerplay_TOR].
Proof.
  assert (Hrun : exists df st',
             fetch_teams (serve_logged site_two_teams) repr_plain init_logged
             = (Ok df, st') /\ df_len df = 2%nat /\
             firstn 2 (world st') = [url_standings; url_powerplay_TOR])
    by (vm_compute; eexists _, _; repeat split).
  destruct Hrun as (df & st' & Hrun & Hlen & Hfirst).
  exists df, st'. split; [exact Hrun|]. split; [|exact Hfirst].
  destruct (@fetch_teams_requests (list string)
              (serve_logged site_two_teams) repr_plain (fun w => w)
              (fun w url => eq_refl) init_logged df st' Hrun)
    as (_ & Hcount & _).
  rewrite Hlen in Hcount. exact Hcount.
Defined.

Lemma site_bad_entry_well_formed :
  serves_well_formed_stats (serve site_bad_entry).
Proof.
  apply serve_well_formed. unfold site_bad_entry.
  repeat (apply Forall_cons;
          [ cbn [fst snd];
            first
              [ right; intros; reflexivity
              | left; right; eexists _, _;
                split; [reflexivity|]; split; [reflexivity|];
                first [ now left | right; eexists _, _; reflexivity ] ]
          | ]).
  apply Forall_nil.
Qed.

Lemma bad_entry_aborts_run_witness :
  exists st2,
    fetch_teams (serve site_bad_entry) repr_plain
                (mkState tt [LineStarting] 0%nat [] [])
    = (Raise (KeyError (VStr "conferenceName")), st2) /\
    main_of site_bad_entry = (Raise (KeyError (VStr "conferenceName")), st2) /\
    files st2 = [] /\ dirs st2 = [].
Proof.
  exact (@bad_entry_aborts_run unit (serve site_bad_entry) repr_plain
           init (mkState tt [LineStarting] 0%nat [] [])
           (standings_of [entry_TOR; entry_no_conference; entry_MTL])
           [entry_TOR] entry_no_conference [entry_MTL]
           (KeyError (VStr "conferenceName"))
           eq_refl eq_refl eq_refl site_bad_entry_well_formed
           (Forall_cons _ entry_TOR_complete (Forall_nil _)) eq_refl).
Defined.

Lemma missing_operand_raises_TypeError_witness :
  standings_row entry_no_regulation_wins = Raise TypeError.
Proof.
  unfold entry_no_regulation_wins.
  eapply missing_operand_raises_TypeError; try reflexivity.
  right. reflexivity.
Defined.

Lemma cayenne_expression_shape_witness :
  cayenne_of repr_plain (VStr "TOR") = cayenne_TOR.
Proof.
  exact (proj2 (proj2 (cayenne_expression_shape repr_plain "TOR")) eq_refl).
Defined.

End Run.
